(** * klaas command-line scripts: a shallow embedding and its properties

    The four scripts of [klaas/scripts] are thin pipelines around numpy,
    pandas, h5py and scikit-learn.  Each script gets a module below that
    keeps the control flow of its [main] function; the library calls are
    either modelled (lists for arrays and data frames, [gmap] for the
    datasets of an HDF5 group) or kept abstract (the numeric kernels of
    [NumPy], the estimators, the random generator).

    - [SplitData]            : [split_data.py]
    - [ApplyRegression]      : [apply_regression_model.py]
    - [ApplySeparation]      : [apply_separation_model.py]
    - [TrainEnergyRegressor] : [train_energy_regressor.py] *)

From Stdlib Require Import ZArith QArith Qround Qabs Lia Lqa.
From stdpp Require Import gmap strings list fin_maps.

Open Scope Z_scope.

(** ** Exceptions and outcomes shared by the scripts *)

Inductive exn : Type :=
  | AssertionError (msg : string)
  | ValueError (msg : string)
  | KeyError (name : string)
  | TypeError (msg : string)
  | ClickException (msg : string)
  | Abort.

Inductive result (A : Type) : Type :=
  | Ok (a : A)
  | Raise (e : exn).
Arguments Ok {A} a.
Arguments Raise {A} e.

(** ** [split_data.py] *)

Module SplitData.

(** Python 3 [round(x)] on a float without [ndigits]: the nearest integer,
    ties going to the even one.  Fractions are floats in the script; every
    finite float is a rational, and the product [n_total * f] is taken
    exactly here. *)
Definition py_round (x : Q) : Z :=
  let fl := Qfloor x in
  match (x - inject_Z fl ?= 1 # 2)%Q with
  | Lt => fl
  | Gt => fl + 1
  | Eq => if Z.even fl then fl else fl + 1
  end.

(** [sum(...)] starts from 0 and adds from the left. *)
Definition py_sum (l : list Z) : Z := fold_left Z.add l 0.
Definition py_sumQ (l : list Q) : Q := fold_left Qplus l (0 # 1)%Q.

(** [num_events = [int(round(n_total * f)) for f in fraction]] *)
Definition num_events (n_total : nat) (fraction : list Q) : list Z :=
  fmap (fun f => py_round (inject_Z (Z.of_nat n_total) * f)) fraction.

(** [if sum(num_events) > n_total: num_events[-1] -= sum(num_events) - n_total].
    The branch is only entered with a positive sum, hence on a non-empty
    list, so [num_events[-1]] always exists there. *)
Definition adjust_last (n_total : nat) (counts : list Z) : list Z :=
  if Z.of_nat n_total <? py_sum counts
  then alter (fun c => c - (py_sum counts - Z.of_nat n_total))
             (pred (length counts)) counts
  else counts.

Inductive format : Type := Csv | Hdf5.

Definition extension (fmt : format) : string :=
  match fmt with
  | Hdf5 => ".hdf5"
  | Csv => ".csv"
  end.

Definition fractions_warning : string := "Fractions do not sum up to 1".
Definition name_assertion : string := "You must give a name for each fraction".
Definition sample_error : string :=
  "Cannot take a larger sample than population when 'replace=False'".
Definition negative_error : string := "negative dimensions are not allowed".

(** What a run leaves behind: the warnings emitted, the files written (in
    the order of the writes) and the exception that ended it, if any. *)
Record outcome (A : Type) : Type := {
  warned : list string;
  written : list (string * list A);
  raised : option exn
}.
Arguments warned {A} o.
Arguments written {A} o.
Arguments raised {A} o.


Section Split.

(** Rows of the data frame; a row carries its identity. *)
Context {A : Type}.

(** [np.random.choice(a, size=n, replace=False)] is
    [permutation(len(a))[:n]]; the [k]-th draw of the run from a
    population of [m] positions uses [permutation k m].  It raises
    [ValueError] on a negative size and on a size larger than the
    population, as numpy does today (where an empty draw from an empty
    population is allowed). *)
Variable permutation : nat -> nat -> list nat.

(** [data.iloc[positions]] (every position used below is in range). *)
Definition iloc (data : list A) (positions : list nat) : list A :=
  omap (fun i => data !! i) positions.

Definition choice (draw : nat) (population : nat) (n : Z)
  : result (list nat) :=
  if n <? 0 then Raise (ValueError negative_error)
  else if Z.of_nat population <? n then Raise (ValueError sample_error)
  else Ok (take (Z.to_nat n) (permutation draw population)).

(** [list(set(all_idx) - set(selected))], listed in increasing order. *)
Definition remaining (all_idx selected : list nat) : list nat :=
  filter (fun i => i ∉ selected) all_idx.

(** The loop [for n, part_name in zip(num_events, name)]. *)
Fixpoint split_parts (output_basename : string) (fmt : format)
    (draw : nat) (data : list A) (parts : list (Z * string))
  : list (string * list A) * option exn :=
  match parts with
  | [] => ([], None)
  | (n, part_name) :: parts' =>
      let all_idx := seq 0 (length data) in
      match choice draw (length data) n with
      | Raise e => ([], Some e)
      | Ok selected =>
          let file :=
            (output_basename +:+ "_" +:+ part_name +:+ extension fmt,
             iloc data selected) in
          let data' := iloc data (remaining all_idx selected) in
          let (files, e) :=
            split_parts output_basename fmt (S draw) data' parts' in
          (file :: files, e)
      end
  end.

Definition main (data : list A) (output_basename : string)
    (fraction : list Q) (name : list string) (fmt : format) : outcome A :=
  if negb (length fraction =? length name)%nat
  then {| warned := []; written := [];
          raised := Some (AssertionError name_assertion) |}
  else
    let w := if Qeq_bool (py_sumQ fraction) (1 # 1)
             then [] else [fractions_warning] in
    let n_total := length data in
    let counts := adjust_last n_total (num_events n_total fraction) in
    let (files, e) :=
      split_parts output_basename fmt 0 data (zip counts name) in
    {| warned := w; written := files; raised := e |}.

End Split.

End SplitData.

(** ** The numeric kernels

    numpy's float64 values and the reductions the scripts call.  [np_mean]
    and [np_std] reduce one slice along the reduced axis; numpy returns
    [nan] on an empty slice. *)

Class NumPy : Type := {
  float : Type;
  nan : float;
  fill_value : float;
  isnan : float -> bool;
  isinf : float -> bool;
  astype_float32 : float -> float;
  np_exp : float -> float;
  np_log : float -> float;
  np_mean : list float -> float;
  np_std : list float -> float
}.

(** One event: the values of its columns, in their order. *)
Abbreviation row := (list float).

Definition isfinite `{NumPy} (x : float) : bool := negb (isnan x || isinf x).

(** [np.full(n, x)] *)
Definition np_full {A} (n : nat) (x : A) : list A := replicate n x.

(** [a[mask] = values] for a boolean mask as long as [a]: the [k]-th
    [True] position receives [values[k]] (the scripts always give as many
    values as the mask has [True] positions). *)
Fixpoint mask_assign {A} (mask : list bool) (a values : list A) : list A :=
  match mask, a with
  | true :: mask', x :: a' =>
      match values with
      | v :: values' => v :: mask_assign mask' a' values'
      | [] => x :: mask_assign mask' a' []
      end
  | false :: mask', x :: a' => x :: mask_assign mask' a' values
  | _, _ => a
  end.

(** [df.loc[mask]] *)
Fixpoint loc {A} (mask : list bool) (df : list A) : list A :=
  match mask, df with
  | b :: mask', r :: df' => if b then r :: loc mask' df' else loc mask' df'
  | _, _ => []
  end.

(** A reduction along axis 0 of a two-dimensional array given as the list
    of its rows, each of [ncols] entries. *)
Definition axis0 {A B} (f : list A -> B) (ncols : nat) (a : list (list A))
  : list B :=
  fmap (fun j => f (omap (fun r => r !! j) a)) (seq 0 ncols).

(** ** HDF5 groups

    The datasets of the group [f[key]], by name.  Operations run inside
    [with h5py.File(path, 'r+')]: what was changed before an exception
    stays in the file. *)

Definition h5 `{NumPy} (A : Type) : Type :=
  gmap string (list float) -> gmap string (list float) * result A.

Section H5.
Context `{NumPy}.

#[global] Instance h5_ret : MRet h5 := fun A a g => (g, Ok a).
#[global] Instance h5_bind : MBind h5 := fun A B k m g =>
  match m g with
  | (g', Ok a) => k a g'
  | (g', Raise e) => (g', Raise e)
  end.

Definition h5_raise {A} (e : exn) : h5 A := fun g => (g, Raise e).

(** [name in f[key].keys()] *)
Definition contains (name : string) : h5 bool :=
  fun g => (g, Ok (bool_decide (is_Some (g !! name)))).

(** [del f[key][name]] *)
Definition del (name : string) : h5 unit :=
  fun g => match g !! name with
           | Some _ => (delete name g, Ok ())
           | None => (g, Raise (KeyError name))
           end.

(** [f[key][name].shape[0]] *)
Definition shape0 (name : string) : h5 nat :=
  fun g => match g !! name with
           | Some d => (g, Ok (length d))
           | None => (g, Raise (KeyError name))
           end.

(** [f[key][name].resize(n, axis=0)]: new entries hold the fill value. *)
Definition resize (name : string) (n : nat) : h5 unit :=
  fun g => match g !! name with
           | Some d =>
               let grown := replicate (n - length d)%nat fill_value in
               (<[name := take n d ++ grown]> g, Ok ())
           | None => (g, Raise (KeyError name))
           end.

(** [f[key][name][start:stop] = data]; the slice is clipped to the
    dataset and has to select as many entries as [data] has. *)
Definition write_slice (name : string) (start stop : nat)
    (data : list float) : h5 unit :=
  fun g => match g !! name with
           | Some d =>
               let lo := Nat.min start (length d) in
               let hi := Nat.min stop (length d) in
               if decide (hi - lo = length data)%nat
               then (<[name := take lo d ++ data ++ drop hi d]> g, Ok ())
               else (g, Raise (TypeError "Can't broadcast"))
           | None => (g, Raise (KeyError name))
           end.

(** [f[key].create_dataset(name, data=data, maxshape=(None, ))] *)
Definition create_dataset (name : string) (data : list float) : h5 unit :=
  fun g => match g !! name with
           | Some _ => (g, Raise (ValueError "name already exists"))
           | None => (<[name := data]> g, Ok ())
           end.

End H5.

(** ** Configuration values and the chunked reader *)

(** A scalar of the YAML configuration. *)
Inductive yaml : Type :=
  | YBool (b : bool)
  | YInt (z : Z)
  | YStr (s : string)
  | YNull.

(** [v is True] *)
Definition is_True (v : yaml) : bool :=
  match v with
  | YBool true => true
  | _ => false
  end.

(** Modelled from the spec: the [k]-th fixed-size row window of the
    chunked reader, with the range of rows it covers. *)
Definition window {A} (table : list A) (chunksize k : nat)
  : list A * nat * nat :=
  let start := (k * chunksize)%nat in
  let stop := Nat.min (length table) ((k + 1) * chunksize) in
  (take (stop - start) (drop start table), start, stop).

(** Modelled from the spec: the chunked HDF5 reader ([read_h5py_chunked],
    [read_telescope_data_chunked]) is not part of the scripts.  It yields
    the table in fixed-size row windows [(rows, start, end)], the last one
    possibly shorter; without a chunk size the whole table is one window.
    A chunk size is a positive number of rows. *)
Definition read_chunked {A} (table : list A) (chunksize : option nat)
  : list (list A * nat * nat) :=
  let n_rows := length table in
  match chunksize with
  | None => [(table, 0, n_rows)]
  | Some c => window table c <$> seq 0 ((n_rows + c - 1) / c)
  end%nat.

(** The rows of the windows, put together again. *)
Definition rows_of {A} (chunks : list (list A * nat * nat)) : list A :=
  concat ((fun c => c.1.1) <$> chunks).

(** The windows follow one another from row [start] on, each one marked
    with the range of rows it holds. *)
Fixpoint contiguous {A} (start : nat) (chunks : list (list A * nat * nat))
  : Prop :=
  match chunks with
  | [] => True
  | (rows, a, b) :: chunks' =>
      a = start /\ b = (start + length rows)%nat /\ contiguous b chunks'
  end.

(** ** [apply_regression_model.py] *)

Module ApplyRegression.

Record config : Type := {
  training_variables : list string;
  log_target : option yaml;
  class_name : option string
}.

(** [config.get('class_name', 'gamma_energy') + '_prediction'] *)
Definition prediction_name (cfg : config) : string :=
  default "gamma_energy" (class_name cfg) +:+ "_prediction".

(** ['{}_std'.format(class_name)] *)
Definition std_name (cfg : config) : string :=
  prediction_name cfg +:+ "_std".

(** [config.get('log_target', False) is True] *)
Definition log_target_is_True (cfg : config) : bool :=
  is_True (default (YBool false) (log_target cfg)).

Section Apply.
Context `{NumPy}.

(** A member of [model.estimators_], taken as the function it computes:
    [t.predict(X)] returns one value per row of [X], computed from that
    row alone, for every batch [X]. *)
Definition estimator : Type := row -> float.
Definition predict (t : estimator) (X : list row) : list float := fmap t X.

(** Modelled from the spec: [convert_to_float32] of [klaas.preprocessing]
    is not among the sources; it converts the feature columns to
    float32. *)
Definition convert_to_float32 (df : list row) : list row :=
  fmap (fun r : row => fmap astype_float32 r) df.

(** Modelled from the spec: [check_valid_rows] of [klaas.preprocessing]
    is not among the sources; its mask is [False] on the rows that
    contain an invalid value (NaN or inf). *)
Definition valid_row (r : row) : bool := forallb isfinite r.
Definition check_valid_rows (df : list row) : list bool := fmap valid_row df.

(** The body of the loop up to the two arrays of the chunk. *)
Definition predict_chunk (cfg : config) (estimators_ : list estimator)
    (df_data : list row) : list float * list float :=
  let df_data := convert_to_float32 df_data in
  let valid := check_valid_rows df_data in
  let energy_prediction := np_full (length df_data) nan in
  let energy_prediction_std := np_full (length df_data) nan in
  let predictions :=
    fmap (fun t => predict t (loc valid df_data)) estimators_ in
  let predictions :=
    if log_target_is_True cfg
    then fmap (fun p : list float => fmap np_exp p) predictions
    else predictions in
  let n_valid := length (loc valid df_data) in
  (mask_assign valid energy_prediction (axis0 np_mean n_valid predictions),
   mask_assign valid energy_prediction_std (axis0 np_std n_valid predictions)).

(** The two outputs of one event, written row by row: the predictions
    of the members on the converted row, exponentiated under
    [log_target], and their mean and standard deviation. *)
Definition member_predictions (cfg : config) (estimators_ : list estimator)
    (r : row) : list float :=
  (fun t : estimator =>
     if log_target_is_True cfg then np_exp (t r) else t r) <$> estimators_.

Definition row_prediction (cfg : config) (estimators_ : list estimator)
    (r : row) : float :=
  let r := astype_float32 <$> r in
  if valid_row r then np_mean (member_predictions cfg estimators_ r)
  else nan.

Definition row_prediction_std (cfg : config) (estimators_ : list estimator)
    (r : row) : float :=
  let r := astype_float32 <$> r in
  if valid_row r then np_std (member_predictions cfg estimators_ r)
  else nan.

(** Which branch of [if class_name in f[key].keys()] a chunk takes. *)
Inductive branch : Type := Append | Create.

Definition chunk_branch (cfg : config) : h5 branch :=
  found ← contains (prediction_name cfg);
  mret (if found : bool then Append else Create).

(** The [with h5py.File(data_path, 'r+')] block of the loop. *)
Definition write_chunk (cfg : config)
    (energy_prediction energy_prediction_std : list float)
    (start stop : nat) : h5 unit :=
  b ← chunk_branch cfg;
  match b with
  | Append =>
      n_existing ← shape0 (prediction_name cfg);
      let n_new := length energy_prediction in
      resize (prediction_name cfg) (n_existing + n_new);;
      write_slice (prediction_name cfg) start stop energy_prediction;;
      resize (std_name cfg) (n_existing + n_new);;
      write_slice (std_name cfg) start stop energy_prediction_std
  | Create =>
      create_dataset (prediction_name cfg) energy_prediction;;
      create_dataset (std_name cfg) energy_prediction_std
  end.

(** [for df_data, start, end in tqdm(df_generator)] *)
Fixpoint predict_loop (cfg : config) (estimators_ : list estimator)
    (chunks : list (list row * nat * nat)) : h5 unit :=
  match chunks with
  | [] => mret ()
  | (df_data, start, stop) :: chunks' =>
      let (energy_prediction, energy_prediction_std) :=
        predict_chunk cfg estimators_ df_data in
      write_chunk cfg energy_prediction energy_prediction_std start stop;;
      predict_loop cfg estimators_ chunks'
  end.

(** The overwrite check that opens the script.  [yes] is the [--yes]
    flag, [confirm] the answer given at the prompt of
    [click.confirm(..., abort=True)]. *)
Definition delete_existing (cfg : config) (yes confirm : bool) : h5 unit :=
  found ← contains (prediction_name cfg);
  if found : bool then
    (if negb yes && negb confirm then h5_raise Abort else mret ());;
    del (prediction_name cfg);;
    del (std_name cfg)
  else mret ().

(** The run stopped after [k] iterations of the prediction loop; [table]
    holds the columns [training_variables] of the group. *)
Definition main_after (k : nat) (cfg : config) (table : list row)
    (estimators_ : list estimator) (chunksize : option nat)
    (yes confirm : bool) : h5 unit :=
  delete_existing cfg yes confirm;;
  predict_loop cfg estimators_ (take k (read_chunked table chunksize)).

Definition main (cfg : config) (table : list row)
    (estimators_ : list estimator) (chunksize : option nat)
    (yes confirm : bool) : h5 unit :=
  delete_existing cfg yes confirm;;
  predict_loop cfg estimators_ (read_chunked table chunksize).

End Apply.

End ApplyRegression.

(** ** [apply_separation_model.py] *)

Module ApplySeparation.

(** What the script reads off [KlaasConfig]. *)
Record config : Type := {
  columns_to_read : list string;
  training_variables : list string;
  class_name : string;
  feature_generation_config : bool
}.

Definition prediction_column_name (cfg : config) : string :=
  class_name cfg +:+ "_prediction".

Definition source_dependent_message : string :=
  "Using source dependent features in the model is not supported".

Section Apply.
Context `{NumPy}.

(** The names of the features that depend on the reconstructed source
    position ([klaas.features]). *)
Variable source_dependent : string -> bool.

(** The feature-generation engine, on one event. *)
Variable feature_generation : row -> row.

(** Modelled from the spec: [has_source_dependent_columns] of
    [klaas.features] is not among the sources; it tells whether the
    columns include a feature that depends on a reconstructed source
    position. *)
Definition has_source_dependent_columns (columns : list string) : bool :=
  existsb source_dependent columns.

(** Modelled from the spec: [check_existing_column] of [klaas.io] is not
    among the sources; an existing prediction column is deleted, after
    the user agreed unless [--yes] was given, and the run is aborted when
    the user declines. *)
Definition check_existing_column (cfg : config) (yes confirm : bool)
  : h5 unit :=
  found ← contains (prediction_column_name cfg);
  if found : bool then
    (if negb yes && negb confirm then h5_raise Abort else mret ());;
    del (prediction_column_name cfg)
  else mret ().

(** Modelled from the spec: [predict] of [klaas.apply] is not among the
    sources; it mirrors the regression case for a class-probability
    estimator: invalid rows get NaN, the others the model's value. *)
Definition predict (df_data : list row) (model : row -> float)
  : list float :=
  let df := fmap (fun r : row => fmap astype_float32 r) df_data in
  let valid := fmap (forallb isfinite) df in
  mask_assign valid (np_full (length df) nan) (fmap model (loc valid df)).

(** Modelled from the spec: [append_to_h5py] of [klaas.io] is not among
    the sources; the dataset is created on the first chunk and resized
    and appended to on the following ones. *)
Definition append_to_h5py (array : list float) (name : string) : h5 unit :=
  found ← contains name;
  if found : bool then
    n_existing ← shape0 name;
    resize name (n_existing + length array);;
    write_slice name n_existing (n_existing + length array) array
  else create_dataset name array.

Fixpoint predict_loop (cfg : config) (model : row -> float)
    (chunks : list (list row * nat * nat)) : h5 unit :=
  match chunks with
  | [] => mret ()
  | (df_data, start, stop) :: chunks' =>
      let df_data :=
        if feature_generation_config cfg
        then fmap feature_generation df_data else df_data in
      let signal_prediction := predict df_data model in
      append_to_h5py signal_prediction (prediction_column_name cfg);;
      predict_loop cfg model chunks'
  end.

Definition main (cfg : config) (table : list row) (model : row -> float)
    (chunksize : option nat) (yes confirm : bool) : h5 unit :=
  if has_source_dependent_columns (columns_to_read cfg)
  then h5_raise (ClickException source_dependent_message)
  else
    check_existing_column cfg yes confirm;;
    predict_loop cfg model (read_chunked table chunksize).

End Apply.

End ApplySeparation.

(** ** [train_energy_regressor.py] *)

Module TrainEnergyRegressor.

Section Train.
Context `{NumPy}.

(** The estimator built from [config['regressor']]: an object that
    [fit] updates in place and [predict] reads. *)
Context {regressor : Type}.
Variable fit : regressor -> list row -> list float -> regressor.
Variable predict : regressor -> list row -> list float.

(** [metrics.r2_score(y_true, y_pred)] *)
Variable r2_score : list float -> list float -> float.

(** [a[index]] for an array of positions *)
Definition at_positions {A} (a : list A) (index : list nat) : list A :=
  omap (fun i => a !! i) index.

(** One frame of [cv_predictions]. *)
Record fold_frame : Type := {
  label : list float;
  label_prediction : list float;
  cv_fold : nat
}.

(** The body of the cross-validation loop on the fold [(train, test)]:
    the regressor as the fit leaves it, the score and the frame. *)
Definition cv_step (log_target : bool) (reg : regressor)
    (X : list row) (y : list float) (fold : nat)
    (split : list nat * list nat) : regressor * float * fold_frame :=
  let (train, test) := split in
  let cv_x_train := at_positions X train in
  let cv_x_test := at_positions X test in
  let cv_y_train := at_positions y train in
  let cv_y_test := at_positions y test in
  let reg := fit reg cv_x_train cv_y_train in
  let cv_y_prediction := predict reg cv_x_test in
  let cv_y_test :=
    if log_target then fmap np_exp cv_y_test else cv_y_test in
  let cv_y_prediction :=
    if log_target then fmap np_exp cv_y_prediction else cv_y_prediction in
  (reg, r2_score cv_y_test cv_y_prediction,
   {| label := cv_y_test; label_prediction := cv_y_prediction;
      cv_fold := fold |}).

(** [for fold, (train, test) in enumerate(kfold.split(df_train.values))]:
    the one [regressor] object goes through all the folds. *)
Fixpoint cross_validation (log_target : bool) (reg : regressor)
    (X : list row) (y : list float) (fold : nat)
    (splits : list (list nat * list nat))
  : regressor * list float * list fold_frame :=
  match splits with
  | [] => (reg, [], [])
  | split :: splits' =>
      let '(reg, score, frame) := cv_step log_target reg X y fold split in
      let '(reg, scores, cv_predictions) :=
        cross_validation log_target reg X y (S fold) splits' in
      (reg, score :: scores, frame :: cv_predictions)
  end.

(** The regressor as fold [k] finds it: the configured one after the
    fits of the folds before. *)
Definition regressor_at (reg : regressor) (X : list row) (y : list float)
    (splits : list (list nat * list nat)) (k : nat) : regressor :=
  fold_left
    (fun r split => fit r (at_positions X split.1) (at_positions y split.1))
    (take k splits) reg.

(** The same loop as the specification words it: every fold fits a
    fresh copy of the configured estimator [reg0]. *)
Fixpoint cross_validation_fresh (log_target : bool) (reg0 : regressor)
    (X : list row) (y : list float) (fold : nat)
    (splits : list (list nat * list nat))
  : list float * list fold_frame :=
  match splits with
  | [] => ([], [])
  | split :: splits' =>
      let '(_, score, frame) := cv_step log_target reg0 X y fold split in
      let '(scores, cv_predictions) :=
        cross_validation_fresh log_target reg0 X y (S fold) splits' in
      (score :: scores, frame :: cv_predictions)
  end.

(** The script from the log transform of the target on: [df_train] and
    [target] are the cleaned training table and its target column,
    [splits] what [KFold(...).split] yields.  The result is the scores,
    the frames and the regressor fitted on the whole table. *)
Definition main (log_target : option yaml) (reg : regressor)
    (df_train : list row) (target : list float)
    (splits : list (list nat * list nat))
  : list float * list fold_frame * regressor :=
  let log_target := is_True (default (YBool false) log_target) in
  let target := if log_target then fmap np_log target else target in
  let '(reg, scores, cv_predictions) :=
    cross_validation log_target reg df_train target 0 splits in
  (scores, cv_predictions, fit reg df_train target).

End Train.

End TrainEnergyRegressor.

(** A regressor with a warm start, as [warm_start=True] makes the forests
    of scikit-learn: once fitted, a further [fit] with the same number of
    trees keeps the trees it has.  Unfitted it is [None]; fitted it
    predicts one value, the mean of the targets it was fitted on. *)
Definition warm_start_fit `{NumPy} (reg : option float) (X : list row)
    (y : list float) : option float :=
  match reg with
  | Some v => Some v
  | None => Some (np_mean y)
  end.

Definition warm_start_predict `{NumPy} (reg : option float) (X : list row)
  : list float :=
  (fun _ => default nan reg) <$> X.

(** ** An exact instance of the numeric kernels

    Integers with a NaN, with integer stand-ins for the reductions; it
    serves to run the definitions on concrete inputs. *)

Definition all_numbers (l : list (option Z)) : option (list Z) :=
  mapM (fun x => x) l.

Definition exact_numpy : NumPy := {|
  float := option Z;
  nan := None;
  fill_value := Some 0;
  isnan := fun x => bool_decide (x = None);
  isinf := fun _ => false;
  astype_float32 := fun x => x;
  np_exp := fmap (Z.pow 2);
  np_log := fmap Z.log2;
  np_mean := fun l =>
    zs ← all_numbers l;
    if bool_decide (zs = []) then None
    else Some (foldr Z.add 0 zs / Z.of_nat (length zs));
  np_std := fun l =>
    zs ← all_numbers l;
    match zs with
    | [] => None
    | z :: zs' => Some (foldr Z.max z zs' - foldr Z.min z zs')
    end
|}.

(** The sum of the squared residuals, in the place of [r2_score]. *)
Definition squared_residuals (y_true y_pred : list (option Z)) : option Z :=
  t ← all_numbers y_true;
  p ← all_numbers y_pred;
  Some (foldr Z.add 0 (zip_with (fun a b => (a - b) * (a - b)) t p)).

(** Five events with two features, the second event with a NaN, and an
    ensemble of two members, to run the apply scripts on. *)
Definition five_events : list (list (option Z)) :=
  [[Some 1; Some 2]; [Some 3; None]; [Some 0; Some 1]; [Some 2; Some 2];
   [Some 1; Some 0]].

Definition first_feature (r : list (option Z)) : option Z :=
  Some (match r with Some z :: _ => z | _ => 0 end).

Definition feature_total (r : list (option Z)) : option Z :=
  Some (foldr (fun x acc => default 0 x + acc) 0 r).

Definition two_members : list (list (option Z) -> option Z) :=
  [first_feature; feature_total].

Definition log_config : ApplyRegression.config := {|
  ApplyRegression.training_variables := ["size"; "theta"];
  ApplyRegression.log_target := Some (YBool true);
  ApplyRegression.class_name := None
|}.

(** ** [train_energy_regressor.py]: the training table

    The lines between the reading of the data and the log transform:
    [df_train] is made of the float32 features without the rows that have
    a NaN, a sample of them if [n_signal] asks for one, and [target] is
    read off the target column at the index labels that are left.  The
    frame has the default index 0, 1, ... *)

Module TrainingTable.

Definition sample_error : string :=
  "Cannot take a larger sample than population when 'replace=False'".
Definition negative_error : string :=
  "A negative number of rows requested. Please provide positive value.".

Section Table.
Context `{NumPy}.

(** [df.sample(n, random_state=seed)] takes the rows at
    [permutation(len(df))[:n]], the permutation being the one the seed
    gives for that length. *)
Variable permutation : nat -> list nat.

(** A frame with its index labels. *)
Definition with_index (X : list row) : list (nat * row) :=
  imap (fun i r => (i, r)) X.

(** The row has no missing value: pandas counts NaN as missing, not inf. *)
Definition notnull (r : row) : bool := forallb (fun x => negb (isnan x)) r.

(** [df.dropna(how='any')] *)
Definition dropna (df : list (nat * row)) : list (nat * row) :=
  filter (fun ir => Is_true (notnull ir.2)) df.

(** [df.sample(n, random_state=seed)] *)
Definition sample (df : list (nat * row)) (n : Z)
  : result (list (nat * row)) :=
  if n <? 0 then Raise (ValueError negative_error)
  else if Z.of_nat (length df) <? n then Raise (ValueError sample_error)
  else Ok (omap (fun i => df !! i)
             (take (Z.to_nat n) (permutation (length df)))).

(** [column.loc[index]] for a list of labels: every label has to be there. *)
Fixpoint loc_labels (column : list float) (index : list nat)
  : result (list float) :=
  match index with
  | [] => Ok []
  | i :: index' =>
      match column !! i with
      | None => Raise (KeyError "not in index")
      | Some v =>
          match loc_labels column index' with
          | Ok vs => Ok (v :: vs)
          | Raise e => Raise e
          end
      end
  end.

(** [df_train] and [target] as the cross-validation gets them, from the
    feature columns [X] and the target column of [df]; [n_signal] is
    [config.get('n_signal')]. *)
Definition training_rows (X : list row) (target_column : list float)
    (n_signal : option Z) : result (list (nat * row) * list float) :=
  let df_train :=
    dropna (with_index (ApplyRegression.convert_to_float32 X)) in
  let sampled :=
    match n_signal with
    | Some n => if n =? 0 then Ok df_train else sample df_train n
    | None => Ok df_train
    end in
  match sampled with
  | Raise e => Raise e
  | Ok df_train =>
      match loc_labels target_column df_train.*1 with
      | Raise e => Raise e
      | Ok target => Ok (df_train, target)
      end
  end.

End Table.

End TrainingTable.

(** A regressor whose [fit] starts afresh: fitted, it predicts the mean
    of the targets of its last fit. *)
Definition mean_fit `{NumPy} (reg : option float) (X : list row)
    (y : list float) : option float :=
  Some (np_mean y).

(** * Properties *)

(** ** The splitter *)


Lemma py_sum_from (l : list Z) (a : Z) : fold_left Z.add l a = a + SplitData.py_sum l.
Proof.
  unfold SplitData.py_sum. revert a.
  induction l as [| c l IH]; intros a; simpl; [lia |].
  rewrite (IH (a + c)), (IH (0 + c)). lia.
Qed.

Lemma py_sum_cons (c : Z) (l : list Z) :
  SplitData.py_sum (c :: l) = c + SplitData.py_sum l.
Proof. unfold SplitData.py_sum at 1. simpl. apply py_sum_from. Qed.


Section SplitLists.
Context {A : Type}.
Implicit Types (data : list A) (pos sel : list nat).

Lemma iloc_length data pos :
  (forall i, i ∈ pos -> (i < length data)%nat) ->
  length (SplitData.iloc data pos) = length pos.
Proof.
  unfold SplitData.iloc. induction pos as [| i pos IH]; intros Hin; [reflexivity |].
  destruct (lookup_lt_is_Some_2 data i) as [x Hx].
  { apply Hin. left. }
  cbn. rewrite Hx. cbn. f_equal. apply IH. intros j Hj. apply Hin. now right.
Qed.

Lemma iloc_elem data pos x :
  x ∈ SplitData.iloc data pos <-> exists i, i ∈ pos /\ data !! i = Some x.
Proof. apply list_elem_of_omap. Qed.

Lemma iloc_subseteq data pos : SplitData.iloc data pos ⊆ data.
Proof.
  intros x [i [_ Hi]]%iloc_elem. apply list_elem_of_lookup. eauto.
Qed.

Lemma iloc_NoDup data pos :
  NoDup data -> NoDup pos -> NoDup (SplitData.iloc data pos).
Proof.
  intros Hd. unfold SplitData.iloc.
  induction 1 as [| i pos Hi Hpos IH]; [constructor |].
  cbn. destruct (data !! i) as [x |] eqn:Hx; cbn; [| exact IH].
  constructor; [| exact IH].
  intros [j [Hj Hjx]]%list_elem_of_omap.
  pose proof (NoDup_lookup data i j x Hd Hx Hjx). congruence.
Qed.

Lemma iloc_disjoint data pos1 pos2 x :
  NoDup data -> (forall i, i ∈ pos1 -> i ∈ pos2 -> False) ->
  x ∈ SplitData.iloc data pos1 -> x ∈ SplitData.iloc data pos2 -> False.
Proof.
  intros Hd Hdis [i [Hi Hix]]%iloc_elem [j [Hj Hjx]]%iloc_elem.
  pose proof (NoDup_lookup data i j x Hd Hix Hjx). subst. eauto.
Qed.

Lemma remaining_length (m : nat) sel :
  NoDup sel -> (forall i, i ∈ sel -> (i < m)%nat) ->
  (length (SplitData.remaining (seq 0 m) sel) + length sel)%nat = m.
Proof.
  intros Hnd Hin. unfold SplitData.remaining.
  pose proof (filter_app_complement (fun i => i ∉ sel) (seq 0 m)) as Hp.
  apply Permutation_length in Hp. rewrite length_app, length_seq in Hp.
  assert (Hs : filter (fun i : nat => ¬ (i ∉ sel)) (seq 0 m) ≡ₚ sel).
  { apply NoDup_Permutation; [apply NoDup_filter, NoDup_seq | exact Hnd |].
    intros i. rewrite list_elem_of_filter, elem_of_seq. split.
    - intros [Hi _]. destruct (decide (i ∈ sel)); tauto.
    - intros Hi. split; [tauto |]. specialize (Hin i Hi). lia. }
  apply Permutation_length in Hs. lia.
Qed.

End SplitLists.

Section SplitRun.
Context {A : Type} (permutation : nat -> nat -> list nat).
Implicit Types (data : list A) (parts : list (Z * string)).

Lemma choice_Raise draw (m : nat) (n : Z) e :
  SplitData.choice permutation draw m n = Raise e ->
  (n < 0 \/ Z.of_nat m < n) /\ exists msg, e = ValueError msg.
Proof.
  unfold SplitData.choice.
  destruct (Z.ltb_spec n 0); [intros [= <-]; eauto |].
  destruct (Z.ltb_spec (Z.of_nat m) n); [intros [= <-]; eauto | discriminate].
Qed.

Lemma choice_feasible draw (m : nat) (n : Z) :
  0 <= n <= Z.of_nat m ->
  SplitData.choice permutation draw m n
  = Ok (take (Z.to_nat n) (permutation draw m)).
Proof.
  intros Hn. unfold SplitData.choice.
  destruct (Z.ltb_spec n 0); [lia |].
  destruct (Z.ltb_spec (Z.of_nat m) n); [lia | reflexivity].
Qed.

Lemma split_parts_raised ob fmt parts : forall draw data files e,
  SplitData.split_parts permutation ob fmt draw data parts = (files, e) ->
  e = None \/ exists msg, e = Some (ValueError msg).
Proof.
  induction parts as [| [n nm] parts IH]; intros draw data files e; simpl.
  - intros [= <- <-]. now left.
  - destruct (SplitData.choice permutation draw (length data) n) as [sel | e'] eqn:Hc.
    + destruct (SplitData.split_parts _ _ _ _ _ parts) as [fs e1] eqn:Hrec.
      intros [= <- <-]. eapply IH; eauto.
    + intros [= <- <-]. apply choice_Raise in Hc as [_ [msg ->]]. eauto.
Qed.

Lemma split_parts_negative_last ob fmt c nm init : forall draw data files e,
  c < 0 ->
  SplitData.split_parts permutation ob fmt draw data (init ++ [(c, nm)])
  = (files, e) ->
  (length files <= length init)%nat /\ exists msg, e = Some (ValueError msg).
Proof.
  induction init as [| [n nm'] init IH]; intros draw data files e Hc; simpl.
  - unfold SplitData.choice. destruct (Z.ltb_spec c 0); [| lia].
    intros [= <- <-]. split; [reflexivity | eauto].
  - destruct (SplitData.choice permutation draw (length data) n) as [sel | e'] eqn:Hch.
    + destruct (SplitData.split_parts _ _ _ _ _ (init ++ _)) as [fs e1] eqn:Hrec.
      intros [= <- <-]. destruct (IH _ _ _ _ Hc Hrec) as [Hl He].
      split; [simpl; lia | exact He].
    + intros [= <- <-]. apply choice_Raise in Hch as [_ [msg ->]].
      split; [simpl; lia | eauto].
Qed.

Hypothesis permutation_spec : forall k m, permutation k m ≡ₚ seq 0 m.

Lemma choice_Ok draw (m : nat) (n : Z) sel :
  SplitData.choice permutation draw m n = Ok sel ->
  0 <= n <= Z.of_nat m /\ NoDup sel /\
  (forall i, i ∈ sel -> (i < m)%nat) /\ length sel = Z.to_nat n.
Proof.
  unfold SplitData.choice.
  destruct (Z.ltb_spec n 0); [discriminate |].
  destruct (Z.ltb_spec (Z.of_nat m) n); [discriminate |].
  intros [= <-]. pose proof (permutation_spec draw m) as Hp.
  split; [lia |]. split; [| split].
  - apply (sublist_NoDup _ (permutation draw m)); [| apply sublist_take].
    rewrite Hp. apply NoDup_seq.
  - intros i Hi. apply (subseteq_take (Z.to_nat n)) in Hi.
    rewrite Hp in Hi. apply elem_of_seq in Hi. lia.
  - rewrite length_take, Hp, length_seq. lia.
Qed.



Lemma split_parts_complete ob fmt parts : forall draw data files e,
  Forall (fun n => 0 <= n) parts.*1 ->
  SplitData.py_sum parts.*1 <= Z.of_nat (length data) ->
  SplitData.split_parts permutation ob fmt draw data parts = (files, e) ->
  e = None /\ length files = length parts.
Proof.
  induction parts as [| [n nm] parts IH]; intros draw data files e Hpos Hsum;
    cbn [SplitData.split_parts].
  { intros [= <- <-]. split; reflexivity. }
  rewrite fmap_cons in Hpos, Hsum. cbn [fst] in Hpos, Hsum.
  rewrite py_sum_cons in Hsum.
  apply Forall_cons in Hpos as [Hn Hpos].
  assert (Hs : 0 <= SplitData.py_sum parts.*1).
  { clear -Hpos. induction Hpos; [reflexivity | rewrite py_sum_cons; lia]. }
  rewrite choice_feasible by lia.
  set (sel := take (Z.to_nat n) (permutation draw (length data))).
  destruct (choice_Ok draw (length data) n sel) as (_ & Hsel & Hin & Hlen).
  { apply choice_feasible. lia. }
  set (rest := SplitData.remaining (seq 0 (length data)) sel).
  destruct (SplitData.split_parts _ _ _ _ _ parts) as [fs e1] eqn:Hrec.
  intros [= <- <-].
  assert (Hrin : forall i, i ∈ rest -> (i < length data)%nat).
  { intros i [_ Hi%elem_of_seq]%list_elem_of_filter. lia. }
  pose proof (remaining_length (length data) sel Hsel Hin) as Hrl.
  fold rest in Hrl.
  assert (Hfit : SplitData.py_sum parts.*1
                 <= Z.of_nat (length (SplitData.iloc data rest))).
  { rewrite (iloc_length data rest Hrin). lia. }
  destruct (IH _ _ _ _ Hpos Hfit Hrec) as [-> Hl].
  split; [reflexivity | simpl; lia].
Qed.

End SplitRun.

(** *** The adjustment of the last count *)

Lemma adjust_last_fits (n_total : nat) (counts : list Z) :
  SplitData.py_sum counts <= Z.of_nat n_total ->
  SplitData.adjust_last n_total counts = counts.
Proof.
  intros Hfit. unfold SplitData.adjust_last.
  destruct (Z.ltb_spec (Z.of_nat n_total) (SplitData.py_sum counts)); [lia | reflexivity].
Qed.

Lemma adjust_last_overflow (n_total : nat) (counts : list Z) :
  Z.of_nat n_total < SplitData.py_sum counts ->
  exists init last_count,
    counts = init ++ [last_count] /\
    SplitData.adjust_last n_total counts
    = init ++ [last_count - (SplitData.py_sum counts - Z.of_nat n_total)].
Proof.
  intros Hover. unfold SplitData.adjust_last.
  destruct (Z.ltb_spec (Z.of_nat n_total) (SplitData.py_sum counts)); [| lia].
  destruct counts as [| c counts] using rev_ind.
  - unfold SplitData.py_sum in Hover. simpl in Hover. lia.
  - exists counts, c. split; [reflexivity |].
    rewrite length_app, Nat.add_1_r. cbn [pred].
    rewrite alter_app_r_alt by lia. rewrite Nat.sub_diag. reflexivity.
Qed.

Lemma adjust_last_length (n_total : nat) (counts : list Z) :
  length (SplitData.adjust_last n_total counts) = length counts.
Proof.
  unfold SplitData.adjust_last. destruct (_ <? _); [apply length_alter | reflexivity].
Qed.

Lemma adjust_last_lookup (n_total : nat) (counts : list Z) (i : nat) :
  (S i < length counts)%nat ->
  SplitData.adjust_last n_total counts !! i = counts !! i.
Proof.
  intros Hi. unfold SplitData.adjust_last. destruct (_ <? _); [| reflexivity].
  apply list_lookup_alter_ne. lia.
Qed.


Lemma num_events_length (n_total : nat) (fraction : list Q) :
  length (SplitData.num_events n_total fraction) = length fraction.
Proof. apply length_fmap. Qed.

Section SplitClaims.
Context {A : Type} (permutation : nat -> nat -> list nat).

Lemma main_unfold (data : list A) ob fraction name fmt :
  length fraction = length name ->
  let counts :=
    SplitData.adjust_last (length data)
      (SplitData.num_events (length data) fraction) in
  let out := SplitData.main permutation data ob fraction name fmt in
  SplitData.split_parts permutation ob fmt 0 data (zip counts name)
  = (SplitData.written out, SplitData.raised out) /\
  (zip counts name).*1 = counts /\
  SplitData.warned out = (if Qeq_bool (SplitData.py_sumQ fraction) (1 # 1)
                then [] else [SplitData.fractions_warning]).
Proof.
  intros Hlen counts out. subst out. unfold SplitData.main.
  rewrite Hlen, Nat.eqb_refl. cbn [negb]. fold counts.
  destruct (SplitData.split_parts _ _ _ _ _ _) as [files e]. cbn.
  split; [reflexivity |]. split; [| reflexivity].
  apply fst_zip. subst counts.
  rewrite adjust_last_length, num_events_length. lia.
Qed.

(** C10. When the rounded counts exceed the number of rows, the whole
    excess is subtracted from the last count and from no other; when the
    excess is larger than the last count, that count is negative, the
    run ends in the [ValueError] of the sampling and the last part is
    not written. *)
Theorem overflow_is_taken_from_the_last_count
    (data : list A) ob fraction name fmt :
  length fraction = length name ->
  let counts := SplitData.num_events (length data) fraction in
  let overflow := SplitData.py_sum counts - Z.of_nat (length data) in
  let out := SplitData.main permutation data ob fraction name fmt in
  0 < overflow ->
  exists init last_count,
    counts = init ++ [last_count] /\
    SplitData.adjust_last (length data) counts
    = init ++ [last_count - overflow] /\
    (last_count < overflow ->
       (exists msg, SplitData.raised out = Some (ValueError msg)) /\
       (length (SplitData.written out) < length name)%nat).
Proof.
  intros Hlen counts overflow out Hover.
  destruct (adjust_last_overflow (length data) counts) as (init & c & Heq & Hadj);
    [lia |].
  exists init, c. split; [exact Heq |]. split; [exact Hadj |].
  intros Hneg.
  destruct (main_unfold data ob fraction name fmt Hlen) as (Hrun & _ & _).
  fold counts out in Hrun. rewrite Hadj in Hrun.
  assert (Hnl : length name = S (length init)).
  { rewrite <- Hlen, <- (num_events_length (length data) fraction).
    fold counts. rewrite Heq, length_app. simpl. lia. }
  destruct name as [| nm name _] using rev_ind; [discriminate |].
  rewrite length_app in Hnl. simpl in Hnl.
  rewrite zip_with_app in Hrun by lia. cbn [zip_with] in Hrun.
  apply split_parts_negative_last in Hrun as [Hfl He]; [| fold overflow; lia].
  split; [exact He |].
  rewrite length_zip in Hfl. rewrite length_app. simpl. lia.
Qed.

Hypothesis permutation_spec : forall k m, permutation k m ≡ₚ seq 0 m.



End SplitClaims.

Lemma overflow_is_taken_from_the_last_count_witness :
  let data := seq 0 9 in
  let fraction := [1 # 6; 1 # 6; 1 # 6; 1 # 6; 1 # 6; 1 # 6]%Q in
  let name := ["a"; "b"; "c"; "d"; "e"; "f"] in
  let counts := SplitData.num_events (length data) fraction in
  let overflow := SplitData.py_sum counts - Z.of_nat (length data) in
  let out := SplitData.main (fun _ m => seq 0 m) data "part" fraction name
               SplitData.Csv in
  length fraction = length name /\
  0 < overflow /\
  exists init last_count,
    counts = init ++ [last_count] /\
    SplitData.adjust_last (length data) counts
    = init ++ [last_count - overflow] /\
    (last_count < overflow ->
       (exists msg, SplitData.raised out = Some (ValueError msg)) /\
       (length (SplitData.written out) < length name)%nat).
Proof.
  split; [reflexivity |]. split; [reflexivity |].
  apply (overflow_is_taken_from_the_last_count (fun _ m => seq 0 m)
           (seq 0 9) "part"
           [1 # 6; 1 # 6; 1 # 6; 1 # 6; 1 # 6; 1 # 6]%Q
           ["a"; "b"; "c"; "d"; "e"; "f"] SplitData.Csv).
  - reflexivity.
  - reflexivity.
Defined.




(** ** The chunked reader *)

Lemma contiguous_take {A} (chunks : list (list A * nat * nat)) :
  forall k start, contiguous start chunks -> contiguous start (take k chunks).
Proof.
  induction chunks as [| [[rows a] b] chunks IH]; intros [| k] start; simpl; try tauto.
  intros (Ha & Hb & Hc). eauto.
Qed.

Lemma rows_of_cons {A} (c : list A * nat * nat) chunks :
  rows_of (c :: chunks) = c.1.1 ++ rows_of chunks.
Proof. reflexivity. Qed.


Lemma chunk_count_spec (n c j : nat) :
  (0 < c)%nat -> (j < (n + c - 1) / c)%nat <-> (j * c < n)%nat.
Proof.
  intros Hc. split.
  - intros Hj.
    assert (H1 : (c * S j <= n + c - 1)%nat).
    { etransitivity; [| apply (Nat.Div0.mul_div_le _ c)].
      apply Nat.mul_le_mono_l. lia. }
    nia.
  - intros Hj. apply (Nat.div_le_lower_bound (n + c - 1) c (S j)); [lia | nia].
Qed.

Lemma read_chunked_windows {A} (table : list A) (c : nat) :
  (0 < c)%nat ->
  forall m j, (j + m = (length table + c - 1) / c)%nat ->
    contiguous (j * c) (window table c <$> seq j m) /\
    (m <> 0%nat -> rows_of (window table c <$> seq j m) = drop (j * c) table).
Proof.
  intros Hc.
  induction m as [| m IH]; intros j Hj; [cbn; tauto |].
  assert (Hjn : (j * c < length table)%nat) by (apply chunk_count_spec; lia).
  destruct (IH (S j)) as [Hcont Hrows]; [lia |].
  cbn [seq]. rewrite fmap_cons, rows_of_cons.
  unfold window at 1 3. cbn [contiguous fst].
  split.
  - split; [reflexivity |]. split.
    + rewrite length_take, length_drop. lia.
    + destruct m as [| m]; [exact I |].
      assert (Hsn : (S j * c < length table)%nat) by (apply chunk_count_spec; lia).
      replace (Nat.min (length table) ((j + 1) * c)) with (S j * c)%nat by lia.
      exact Hcont.
  - intros _. destruct m as [| m].
    + cbn. rewrite app_nil_r. apply take_ge. rewrite length_drop.
      assert (Hlast : ~ (S j * c < length table)%nat).
      { rewrite <- (chunk_count_spec _ c) by exact Hc. lia. }
      lia.
    + assert (Hsn : (S j * c < length table)%nat) by (apply chunk_count_spec; lia).
      rewrite Hrows by discriminate.
      replace (Nat.min (length table) ((j + 1) * c) - j * c)%nat with c by lia.
      rewrite <- (take_drop c (drop (j * c) table)) at 2.
      f_equal. rewrite drop_drop. f_equal. lia.
Qed.

Lemma read_chunked_contiguous {A} (table : list A) (chunksize : option nat) :
  chunksize <> Some 0%nat ->
  contiguous 0 (read_chunked table chunksize) /\
  (table <> [] -> rows_of (read_chunked table chunksize) = table) /\
  (table <> [] -> read_chunked table chunksize <> []).
Proof.
  intros Hc. destruct chunksize as [c |]; simpl.
  - assert (Hpos : (0 < c)%nat) by (destruct c; [congruence | lia]).
    destruct (read_chunked_windows table c Hpos
                ((length table + c - 1) / c) 0 eq_refl) as [Hcont Hrows].
    split; [exact Hcont |].
    assert (Hm : table <> [] -> ((length table + c - 1) / c)%nat <> 0%nat).
    { intros Ht. assert (0 < length table)%nat by (destruct table; [congruence | simpl; lia]).
      pose proof (proj2 (chunk_count_spec (length table) c 0 Hpos)). lia. }
    split.
    + intros Ht. rewrite Hrows by auto. reflexivity.
    + intros Ht Hnil. apply (f_equal length) in Hnil.
      rewrite length_fmap, length_seq in Hnil. simpl in Hnil. apply (Hm Ht Hnil).
  - unfold rows_of. simpl. rewrite app_nil_r. repeat split; try lia; congruence.
Qed.

(** ** The regression apply script *)

Lemma string_length_app (s1 s2 : string) :
  String.length (s1 +:+ s2) = (String.length s1 + String.length s2)%nat.
Proof. induction s1 as [| a s1 IH]; simpl; [reflexivity | now rewrite IH]. Qed.

Lemma std_name_fresh (cfg : ApplyRegression.config) :
  ApplyRegression.prediction_name cfg <> ApplyRegression.std_name cfg.
Proof.
  unfold ApplyRegression.std_name. intros Heq.
  apply (f_equal String.length) in Heq. rewrite string_length_app in Heq.
  simpl in Heq. lia.
Qed.

Lemma mask_assign_loc {A B} (m : A -> bool) (h : A -> B) (d : B) (l : list A) :
  mask_assign (m <$> l) (np_full (length l) d) (h <$> loc (m <$> l) l)
  = (fun x => if m x then h x else d) <$> l.
Proof.
  unfold np_full. induction l as [| x l IH]; [reflexivity |].
  cbn. destruct (m x); cbn; f_equal; exact IH.
Qed.

Lemma axis0_columns {T A B C} (f : list B -> C) (u : T -> A -> B)
    (ts : list T) (X : list A) :
  axis0 f (length X) ((fun t => u t <$> X) <$> ts)
  = (fun r => f ((fun t => u t r) <$> ts)) <$> X.
Proof.
  unfold axis0. apply list_eq. intros j.
  rewrite !list_lookup_fmap.
  destruct (X !! j) as [r |] eqn:Hr.
  - rewrite lookup_seq_lt by (eapply lookup_lt_Some; eauto). cbn.
    do 2 f_equal. clear f.
    induction ts as [| t ts IH]; [reflexivity |]. cbn.
    rewrite list_lookup_fmap, Hr. cbn. f_equal. exact IH.
  - rewrite lookup_seq_ge by (apply lookup_ge_None; exact Hr). reflexivity.
Qed.

Lemma overwrite_columns {V} (g : gmap string V) (pn sn : string)
    (a b a' b' : V) :
  pn <> sn ->
  <[sn := b']> (<[pn := a']> (<[sn := b]> (<[pn := a]> g)))
  = <[sn := b']> (<[pn := a']> g).
Proof.
  intros Hne. apply map_eq. intros k.
  destruct (decide (k = sn)) as [Hs | Hs], (decide (k = pn)) as [Hp | Hp];
    subst; by simplify_map_eq.
Qed.

Section ApplyRegressionRun.
Context `{NumPy}.
Import ApplyRegression.

Implicit Types (cfg : config) (g : gmap string (list float)).

Lemma predict_chunk_rows cfg (estimators_ : list estimator) (df_data : list row) :
  predict_chunk cfg estimators_ df_data
  = (row_prediction cfg estimators_ <$> df_data,
     row_prediction_std cfg estimators_ <$> df_data).
Proof.
  unfold predict_chunk, convert_to_float32, check_valid_rows, predict.
  set (df := (fun r : row => astype_float32 <$> r) <$> df_data).
  set (X := loc (valid_row <$> df) df).
  assert (Hp : (if log_target_is_True cfg
                then (fun p : list float => np_exp <$> p)
                       <$> ((fun t : estimator => t <$> X) <$> estimators_)
                else (fun t : estimator => t <$> X) <$> estimators_)
               = (fun t : estimator =>
                    (fun r => if log_target_is_True cfg
                              then np_exp (t r) else t r) <$> X)
                   <$> estimators_).
  { destruct (log_target_is_True cfg); [| reflexivity].
    rewrite <- list_fmap_compose. apply list_fmap_ext. intros _ t _.
    cbn. rewrite <- list_fmap_compose. reflexivity. }
  rewrite Hp.
  rewrite !(axis0_columns _
              (fun (t : estimator) r =>
                 if log_target_is_True cfg then np_exp (t r) else t r)).
  subst X. rewrite !mask_assign_loc. subst df.
  rewrite <- !list_fmap_compose. reflexivity.
Qed.

Lemma write_chunk_create cfg g (pred std : list float) (start stop : nat) :
  g !! prediction_name cfg = None -> g !! std_name cfg = None ->
  write_chunk cfg pred std start stop g
  = (<[std_name cfg := std]> (<[prediction_name cfg := pred]> g), Ok ()).
Proof.
  intros Hp Hs.
  unfold write_chunk, chunk_branch, contains, create_dataset, mbind, h5_bind,
    mret, h5_ret.
  rewrite Hp. rewrite bool_decide_eq_false_2 by (intros [? ?]; discriminate).
  rewrite Hp. rewrite lookup_insert_ne by apply std_name_fresh.
  rewrite Hs. reflexivity.
Qed.

Lemma resize_grow (name : string) g (d : list float) (n : nat) :
  g !! name = Some d -> (length d <= n)%nat ->
  resize name n g
  = (<[name := d ++ replicate (n - length d) fill_value]> g, Ok ()).
Proof.
  intros Hd Hn. unfold resize. rewrite Hd, take_ge by exact Hn. reflexivity.
Qed.

Lemma write_slice_tail (name : string) g (d pad data : list float) :
  g !! name = Some (d ++ pad) -> length pad = length data ->
  write_slice name (length d) (length d + length data) data g
  = (<[name := d ++ data]> g, Ok ()).
Proof.
  intros Hd Hpad. unfold write_slice. rewrite Hd, length_app, Hpad.
  replace (Nat.min (length d) (length d + length data)) with (length d) by lia.
  rewrite Nat.min_id, decide_True by lia.
  rewrite take_app_length, drop_ge, app_nil_r
    by (rewrite length_app; lia).
  reflexivity.
Qed.

(** [resize] to make room for [data], then the write of [data] into
    the room made. *)
Lemma append_rows (name : string) g (d data : list float) :
  g !! name = Some d ->
  (resize name (length d + length data);;
   write_slice name (length d) (length d + length data) data) g
  = (<[name := d ++ data]> g, Ok ()).
Proof.
  intros Hd. unfold mbind, h5_bind.
  rewrite (resize_grow name g d) by (exact Hd || lia).
  replace (length d + length data - length d)%nat with (length data) by lia.
  rewrite (write_slice_tail name _ d (replicate (length data) fill_value))
    by (rewrite ?lookup_insert_eq, ?length_replicate; reflexivity).
  rewrite insert_insert_eq. reflexivity.
Qed.

Lemma write_chunk_append cfg g (P S pred std : list float) start stop :
  g !! prediction_name cfg = Some P -> g !! std_name cfg = Some S ->
  length S = length P -> length std = length pred ->
  start = length P -> stop = (length P + length pred)%nat ->
  write_chunk cfg pred std start stop g
  = (<[std_name cfg := S ++ std]> (<[prediction_name cfg := P ++ pred]> g),
     Ok ()).
Proof.
  intros Hp Hs HS Hstd -> ->.
  pose proof (std_name_fresh cfg) as Hne.
  pose proof (append_rows (prediction_name cfg) g P pred Hp) as H1.
  pose proof (append_rows (std_name cfg)
                (<[prediction_name cfg := P ++ pred]> g) S std) as H2.
  rewrite lookup_insert_ne in H2 by exact Hne. specialize (H2 Hs).
  rewrite HS, Hstd in H2.
  unfold write_chunk, chunk_branch, contains, shape0.
  unfold mbind, h5_bind, mret, h5_ret in *.
  rewrite Hp. rewrite bool_decide_eq_true_2 by eauto. rewrite Hp.
  destruct (resize (prediction_name cfg) _ g) as [g1 [[] | e1]];
    [| discriminate].
  destruct (write_slice (prediction_name cfg) _ _ pred g1) as [g2 [[] | e2]];
    [| discriminate].
  injection H1 as ->.
  destruct (resize (std_name cfg) _ _) as [g3 [[] | e3]]; [| discriminate].
  exact H2.
Qed.

Lemma predict_loop_append cfg (estimators_ : list estimator) chunks :
  forall g (P S : list float),
    contiguous (length P) chunks ->
    g !! prediction_name cfg = Some P -> g !! std_name cfg = Some S ->
    length S = length P ->
    predict_loop cfg estimators_ chunks g
    = (<[std_name cfg :=
           S ++ (row_prediction_std cfg estimators_ <$> rows_of chunks)]>
         (<[prediction_name cfg :=
              P ++ (row_prediction cfg estimators_ <$> rows_of chunks)]> g),
       Ok ()).
Proof.
  pose proof (std_name_fresh cfg) as Hne.
  induction chunks as [| [[df a] b] chunks IH]; intros g P S Hc Hp Hs HS.
  - cbn. rewrite !app_nil_r.
    rewrite (insert_id g (prediction_name cfg) P Hp).
    rewrite (insert_id g (std_name cfg) S Hs). reflexivity.
  - destruct Hc as (-> & -> & Hc).
    cbn [predict_loop]. rewrite predict_chunk_rows.
    unfold mbind, h5_bind.
    rewrite (write_chunk_append cfg g P S)
      by (rewrite ?length_fmap; auto).
    rewrite <- (length_fmap (row_prediction cfg estimators_) df),
      <- length_app in Hc.
    rewrite (IH _ _ (S ++ (row_prediction_std cfg estimators_ <$> df)) Hc).
    + rewrite overwrite_columns by exact Hne.
      rewrite rows_of_cons, !fmap_app, !app_assoc. reflexivity.
    + rewrite lookup_insert_ne by auto. apply lookup_insert_eq.
    + apply lookup_insert_eq.
    + rewrite !length_app, !length_fmap. lia.
Qed.

Lemma predict_loop_create cfg (estimators_ : list estimator) chunks g :
  chunks <> [] -> contiguous 0 chunks ->
  g !! prediction_name cfg = None -> g !! std_name cfg = None ->
  predict_loop cfg estimators_ chunks g
  = (<[std_name cfg := row_prediction_std cfg estimators_ <$> rows_of chunks]>
       (<[prediction_name cfg :=
            row_prediction cfg estimators_ <$> rows_of chunks]> g),
     Ok ()).
Proof.
  pose proof (std_name_fresh cfg) as Hne.
  destruct chunks as [| [[df a] b] chunks]; [congruence |].
  intros _ (-> & -> & Hc) Hp Hs.
  cbn [predict_loop]. rewrite predict_chunk_rows.
  unfold mbind, h5_bind. rewrite write_chunk_create by assumption.
  cbn [Nat.add] in Hc.
  rewrite <- (length_fmap (row_prediction cfg estimators_) df) in Hc.
  rewrite (predict_loop_append _ _ _ _ _
             (row_prediction_std cfg estimators_ <$> df) Hc).
  - rewrite overwrite_columns by exact Hne.
    rewrite rows_of_cons, !fmap_app. reflexivity.
  - rewrite lookup_insert_ne by auto. apply lookup_insert_eq.
  - apply lookup_insert_eq.
  - rewrite !length_fmap. reflexivity.
Qed.

End ApplyRegressionRun.

Section ApplyRegressionMain.
Context `{NumPy}.
Import ApplyRegression.

Implicit Types (cfg : config) (g : gmap string (list float)).

Lemma delete_existing_Ok cfg (yes confirm : bool) g g1 :
  (is_Some (g !! std_name cfg) -> is_Some (g !! prediction_name cfg)) ->
  delete_existing cfg yes confirm g = (g1, Ok ()) ->
  g1 = delete (std_name cfg) (delete (prediction_name cfg) g) /\
  g1 !! prediction_name cfg = None /\ g1 !! std_name cfg = None.
Proof.
  intros Hfile. pose proof (std_name_fresh cfg) as Hne.
  unfold delete_existing, contains, del, h5_raise, mbind, h5_bind, mret, h5_ret.
  destruct (g !! prediction_name cfg) as [P |] eqn:Hp.
  - rewrite bool_decide_eq_true_2 by eauto.
    destruct (negb yes && negb confirm); [discriminate |].
    rewrite Hp. rewrite lookup_delete_ne by exact Hne.
    destruct (g !! std_name cfg) as [S |] eqn:Hs; [| discriminate].
    intros [= <-]. split; [reflexivity |].
    rewrite lookup_delete_ne, !lookup_delete_eq by auto. split; reflexivity.
  - rewrite bool_decide_eq_false_2 by (intros [? ?]; discriminate).
    intros [= <-].
    assert (Hs : g !! std_name cfg = None).
    { destruct (g !! std_name cfg) eqn:Hs; [| reflexivity].
      destruct Hfile as [? ?]; [eauto | discriminate]. }
    rewrite !delete_id by (rewrite ?delete_id; assumption).
    split; [reflexivity |]. split; assumption.
Qed.

Lemma delete_existing_clean cfg (yes confirm : bool) g :
  (is_Some (g !! prediction_name cfg) <-> is_Some (g !! std_name cfg)) ->
  (is_Some (g !! prediction_name cfg) -> yes || confirm = true) ->
  delete_existing cfg yes confirm g
  = (delete (std_name cfg) (delete (prediction_name cfg) g), Ok ()).
Proof.
  intros Hfile Hok. pose proof (std_name_fresh cfg) as Hne.
  unfold delete_existing, contains, del, h5_raise, mbind, h5_bind, mret, h5_ret.
  destruct (g !! prediction_name cfg) as [P |] eqn:Hp.
  - rewrite bool_decide_eq_true_2 by eauto.
    destruct Hfile as [Hfile _]. destruct Hfile as [S Hs]; [eauto |].
    replace (negb yes && negb confirm) with false
      by (specialize (Hok ltac:(eauto)); destruct yes, confirm; auto; discriminate).
    rewrite Hp. rewrite lookup_delete_ne, Hs by exact Hne. reflexivity.
  - rewrite bool_decide_eq_false_2 by (intros [? ?]; discriminate).
    assert (Hs : g !! std_name cfg = None).
    { destruct (g !! std_name cfg) eqn:Hs; [| reflexivity].
      destruct Hfile as [_ Hfile]. destruct Hfile as [? ?]; [eauto | discriminate]. }
    rewrite !delete_id by (rewrite ?delete_id; assumption). reflexivity.
Qed.

(** The state of the group after [k] iterations. *)
Lemma main_after_spec cfg (table : list row) (estimators_ : list estimator)
    (chunksize : option nat) (yes confirm : bool) g (k : nat) :
  chunksize <> Some 0%nat ->
  (is_Some (g !! prediction_name cfg) <-> is_Some (g !! std_name cfg)) ->
  (is_Some (g !! prediction_name cfg) -> yes || confirm = true) ->
  let chunks := take k (read_chunked table chunksize) in
  let g0 := delete (std_name cfg) (delete (prediction_name cfg) g) in
  g0 !! prediction_name cfg = None /\ g0 !! std_name cfg = None /\
  main_after k cfg table estimators_ chunksize yes confirm g
  = (match chunks with
     | [] => g0
     | _ =>
         <[std_name cfg :=
             row_prediction_std cfg estimators_ <$> rows_of chunks]>
           (<[prediction_name cfg :=
                row_prediction cfg estimators_ <$> rows_of chunks]> g0)
     end, Ok ()).
Proof.
  intros Hc Hfile Hok chunks g0.
  pose proof (delete_existing_clean cfg yes confirm g Hfile Hok) as Hdel.
  destruct (delete_existing_Ok cfg yes confirm g g0) as (_ & Hp0 & Hs0);
    [tauto | exact Hdel |].
  split; [exact Hp0 |]. split; [exact Hs0 |].
  unfold main_after, mbind, h5_bind. rewrite Hdel. fold g0 chunks.
  destruct chunks as [| c chunks'] eqn:Hchunks; [reflexivity |].
  rewrite <- Hchunks. apply predict_loop_create; try assumption.
  - rewrite Hchunks. discriminate.
  - subst chunks. apply contiguous_take.
    apply (read_chunked_contiguous table chunksize Hc).
Qed.

Lemma main_is_main_after cfg (table : list row) (estimators_ : list estimator)
    (chunksize : option nat) (yes confirm : bool) :
  main cfg table estimators_ chunksize yes confirm
  = main_after (length (read_chunked table chunksize)) cfg table
      estimators_ chunksize yes confirm.
Proof. unfold main, main_after. now rewrite firstn_all. Qed.

(** The whole run on a table that is not empty. *)
Lemma main_spec cfg (table : list row) (estimators_ : list estimator)
    (chunksize : option nat) (yes confirm : bool) g :
  chunksize <> Some 0%nat -> table <> [] ->
  (is_Some (g !! prediction_name cfg) <-> is_Some (g !! std_name cfg)) ->
  (is_Some (g !! prediction_name cfg) -> yes || confirm = true) ->
  main cfg table estimators_ chunksize yes confirm g
  = (<[std_name cfg := row_prediction_std cfg estimators_ <$> table]>
       (<[prediction_name cfg := row_prediction cfg estimators_ <$> table]>
          (delete (std_name cfg) (delete (prediction_name cfg) g))),
     Ok ()).
Proof.
  intros Hc Ht Hfile Hok. rewrite main_is_main_after.
  destruct (main_after_spec cfg table estimators_ chunksize yes confirm g
              (length (read_chunked table chunksize)) Hc Hfile Hok)
    as (_ & _ & ->).
  rewrite firstn_all.
  destruct (read_chunked_contiguous table chunksize Hc) as (_ & Hrows & Hne).
  rewrite (Hrows Ht). specialize (Hne Ht).
  destruct (read_chunked table chunksize); [congruence | reflexivity].
Qed.

End ApplyRegressionMain.

Section ApplyRegressionClaims.
Context `{NumPy}.
Import ApplyRegression.

Implicit Types (cfg : config) (g : gmap string (list float)).



(** C3. Under [log_target: true] the arrays of a chunk hold, for every
    valid row, the mean and the standard deviation of the exponentiated
    predictions of the members: each prediction is exponentiated before
    the aggregation. *)
Theorem log_target_exponentiates_members cfg
    (estimators_ : list estimator) (df_data : list row) (i : nat) (r : row) :
  log_target cfg = Some (YBool true) ->
  df_data !! i = Some r ->
  valid_row (astype_float32 <$> r) = true ->
  let exponentiated :=
    (fun t : estimator => np_exp (t (astype_float32 <$> r))) <$> estimators_ in
  (predict_chunk cfg estimators_ df_data).1 !! i
  = Some (np_mean exponentiated) /\
  (predict_chunk cfg estimators_ df_data).2 !! i
  = Some (np_std exponentiated).
Proof.
  intros Hlog Hr Hv exponentiated. rewrite predict_chunk_rows. cbn [fst snd].
  rewrite !list_lookup_fmap, Hr. cbn [fmap option_fmap option_map].
  unfold row_prediction, row_prediction_std, member_predictions,
    log_target_is_True.
  cbn zeta. rewrite Hv, Hlog. split; reflexivity.
Qed.


(** C9. In the overwrite path, when the file has the prediction dataset
    but not its [_std] companion, the run ends in a [KeyError] for the
    missing name and leaves the file without the prediction dataset. *)
Theorem overwrite_without_std_is_not_atomic cfg (table : list row)
    (estimators_ : list estimator) (chunksize : option nat)
    (yes confirm : bool) g (P : list float) :
  g !! prediction_name cfg = Some P ->
  g !! std_name cfg = None ->
  yes || confirm = true ->
  main cfg table estimators_ chunksize yes confirm g
  = (delete (prediction_name cfg) g, Raise (KeyError (std_name cfg))) /\
  delete (prediction_name cfg) g <> g.
Proof.
  intros Hp Hs Hok. split.
  - unfold main, delete_existing, contains, del, h5_raise, mbind, h5_bind,
      mret, h5_ret.
    rewrite Hp. rewrite bool_decide_eq_true_2 by eauto.
    replace (negb yes && negb confirm) with false
      by (destruct yes, confirm; auto; discriminate).
    rewrite Hp. rewrite lookup_delete_ne by apply std_name_fresh.
    rewrite Hs. reflexivity.
  - intros Heq. apply (f_equal (fun m => m !! prediction_name cfg)) in Heq.
    rewrite lookup_delete_eq, Hp in Heq. discriminate.
Qed.

(** C5, on the regression script: it has no check of the features.  A
    configuration whose training variables include a feature that
    depends on the source position is applied like any other: the run
    ends normally with both datasets written. *)
Theorem regression_apply_has_no_source_check
    (source_dependent : string -> bool) cfg (table : list row)
    (estimators_ : list estimator) (chunksize : option nat)
    (yes confirm : bool) g :
  ApplySeparation.has_source_dependent_columns source_dependent
    (training_variables cfg) = true ->
  chunksize <> Some 0%nat -> table <> [] ->
  (is_Some (g !! prediction_name cfg) <-> is_Some (g !! std_name cfg)) ->
  (is_Some (g !! prediction_name cfg) -> yes || confirm = true) ->
  exists g',
    main cfg table estimators_ chunksize yes confirm g = (g', Ok ()) /\
    g' !! prediction_name cfg
    = Some (row_prediction cfg estimators_ <$> table) /\
    g' !! std_name cfg
    = Some (row_prediction_std cfg estimators_ <$> table).
Proof.
  intros _ Hc Ht Hfile Hok.
  rewrite (main_spec cfg table estimators_ chunksize yes confirm g Hc Ht Hfile Hok).
  eexists. split; [reflexivity |].
  rewrite lookup_insert_ne by (apply not_eq_sym, std_name_fresh).
  rewrite !lookup_insert_eq. split; reflexivity.
Qed.

End ApplyRegressionClaims.

(** The separation script does check: with a source dependent column to
    read it raises the [ClickException] and leaves the file as it was. *)
Lemma separation_apply_rejects_source_features `{NumPy}
    (source_dependent : string -> bool) (feature_generation : row -> row)
    (cfg : ApplySeparation.config) (table : list row) (model : row -> float)
    (chunksize : option nat) (yes confirm : bool)
    (g : gmap string (list float)) :
  ApplySeparation.has_source_dependent_columns source_dependent
    (ApplySeparation.columns_to_read cfg) = true ->
  ApplySeparation.main source_dependent feature_generation cfg table model
    chunksize yes confirm g
  = (g, Raise (ClickException ApplySeparation.source_dependent_message)).
Proof. intros Hsrc. unfold ApplySeparation.main. now rewrite Hsrc. Qed.

(** ** The cross-validated trainer *)

Section TrainClaims.
Context `{NumPy} {regressor : Type}.
Variable fit : regressor -> list row -> list float -> regressor.
Variable predict : regressor -> list row -> list float.
Variable r2_score : list float -> list float -> float.
Import TrainEnergyRegressor.

Lemma regressor_at_S (reg : regressor) (X : list row) (y : list float)
    split splits (k : nat) :
  regressor_at fit reg X y (split :: splits) (S k)
  = regressor_at fit
      (fit reg (at_positions X split.1) (at_positions y split.1))
      X y splits k.
Proof. reflexivity. Qed.

Lemma cross_validation_folds (log_target : bool) (X : list row)
    (y : list float) splits :
  forall (reg : regressor) (fold : nat),
    let run := cross_validation fit predict r2_score log_target reg X y fold splits in
    length run.1.2 = length splits /\
    length run.2 = length splits /\
    run.1.1 = regressor_at fit reg X y splits (length splits) /\
    forall k train test, splits !! k = Some (train, test) ->
      let fitted :=
        fit (regressor_at fit reg X y splits k)
          (at_positions X train) (at_positions y train) in
      let cv_y_test :=
        if log_target then np_exp <$> at_positions y test
        else at_positions y test in
      let cv_y_prediction :=
        if log_target then np_exp <$> predict fitted (at_positions X test)
        else predict fitted (at_positions X test) in
      run.1.2 !! k = Some (r2_score cv_y_test cv_y_prediction) /\
      run.2 !! k = Some {| label := cv_y_test;
                           label_prediction := cv_y_prediction;
                           cv_fold := (fold + k)%nat |}.
Proof.
  induction splits as [| [train0 test0] splits IH]; intros reg fold.
  - cbn. do 3 (split; [reflexivity |]).
    intros k ? ? Hk. rewrite lookup_nil in Hk. discriminate.
  - cbn [cross_validation cv_step].
    set (reg1 := fit reg (at_positions X train0) (at_positions y train0)).
    specialize (IH reg1 (S fold)). cbn zeta in IH.
    destruct (cross_validation fit predict r2_score log_target reg1 X y (S fold) splits)
      as [[reg' scores] frames].
    cbn [fst snd] in *. destruct IH as (Hs & Hf & Hr & Hk).
    cbn [length]. rewrite Hs, Hf, Hr. do 3 (split; [reflexivity |]).
    intros [| k] train test Hl.
    + injection Hl as <- <-. cbn. rewrite Nat.add_0_r. split; reflexivity.
    + cbn in Hl. specialize (Hk k train test Hl). cbn zeta in Hk.
      rewrite regressor_at_S. cbn [fst lookup list_lookup].
      replace (fold + S k)%nat with (S fold + k)%nat by lia. exact Hk.
Qed.

Lemma cross_validation_fresh_when_fit_forgets (log_target : bool)
    (X : list row) (y : list float) (reg0 : regressor) splits :
  (forall e e' X' y', fit e X' y' = fit e' X' y') ->
  forall (reg : regressor) (fold : nat),
    let run := cross_validation fit predict r2_score log_target reg X y fold splits in
    (run.1.2, run.2)
    = cross_validation_fresh fit predict r2_score log_target reg0 X y fold splits.
Proof.
  intros Hforget.
  induction splits as [| [train0 test0] splits IH]; intros reg fold;
    [reflexivity |].
  cbn [cross_validation cross_validation_fresh cv_step].
  specialize (IH (fit reg (at_positions X train0) (at_positions y train0))
                (S fold)).
  cbn zeta in IH.
  destruct (cross_validation fit predict r2_score log_target _ X y (S fold) splits)
    as [[reg' scores] frames].
  cbn [fst snd] in *. rewrite <- IH.
  rewrite (Hforget reg reg0). reflexivity.
Qed.

(** C7, as amended.  The one configured regressor goes through the
    folds: fold [k] fits it, as the folds before left it, on the training
    subset and predicts the held-out subset; under [log_target] labels
    and predictions are exponentiated before the score is taken.  The
    regressor fitted last on the whole table is that same object.  Where
    [fit] forgets what was fitted before, this is fitting a fresh copy in
    every fold. *)
Theorem folds_refit_the_configured_regressor (log_target : option yaml)
    (reg : regressor) (df_train : list row) (target : list float)
    (splits : list (list nat * list nat)) :
  let undo := is_True (default (YBool false) log_target) in
  let y := if undo then np_log <$> target else target in
  let run := main fit predict r2_score log_target reg df_train target splits in
  length run.1.1 = length splits /\
  length run.1.2 = length splits /\
  run.2 = fit (regressor_at fit reg df_train y splits (length splits))
            df_train y /\
  (forall k train test, splits !! k = Some (train, test) ->
     let fitted :=
       fit (regressor_at fit reg df_train y splits k)
         (at_positions df_train train) (at_positions y train) in
     let cv_y_test :=
       if undo then np_exp <$> at_positions y test else at_positions y test in
     let cv_y_prediction :=
       if undo then np_exp <$> predict fitted (at_positions df_train test)
       else predict fitted (at_positions df_train test) in
     run.1.1 !! k = Some (r2_score cv_y_test cv_y_prediction) /\
     run.1.2 !! k = Some {| label := cv_y_test;
                            label_prediction := cv_y_prediction;
                            cv_fold := k |}) /\
  ((forall e e' X' y', fit e X' y' = fit e' X' y') ->
   run.1 = cross_validation_fresh fit predict r2_score undo reg df_train y 0 splits).
Proof.
  intros undo y run. subst run. unfold main. fold undo. fold y.
  pose proof (cross_validation_folds undo df_train y splits reg 0) as Hcv.
  pose proof (fun Hf => cross_validation_fresh_when_fit_forgets undo df_train
                          y reg splits Hf reg 0%nat) as Hfresh.
  cbn zeta in Hcv, Hfresh.
  destruct (cross_validation fit predict r2_score undo reg df_train y 0 splits)
    as [[reg' scores] frames].
  cbn [fst snd] in *. destruct Hcv as (Hs & Hf & -> & Hk).
  do 3 (split; [assumption || reflexivity |]).
  split; [exact Hk | exact Hfresh].
Qed.

End TrainClaims.

(** C7, as stated, fails for a regressor with a warm start: in the second
    of two folds the script predicts with what the first fold fitted, a
    fresh copy would predict from the second training subset. *)
Lemma warm_start_counterexample :
  let X : list (list (option Z)) := [[Some 0]; [Some 1]] in
  let y : list (option Z) := [Some 10; Some 20] in
  let splits := [([1], [0]); ([0], [1])]%nat in
  let run :=
    TrainEnergyRegressor.main (H := exact_numpy) warm_start_fit
      warm_start_predict squared_residuals None None X y splits in
  let fresh :=
    TrainEnergyRegressor.cross_validation_fresh (H := exact_numpy)
      warm_start_fit warm_start_predict squared_residuals false None X y 0
      splits in
  TrainEnergyRegressor.label_prediction (H := exact_numpy) <$> run.1.2 = [[Some 20]; [Some 20]] /\
  TrainEnergyRegressor.label_prediction (H := exact_numpy) <$> fresh.2 = [[Some 20]; [Some 10]] /\
  run.1 <> fresh.
Proof.
  split; [reflexivity |]. split; [reflexivity |].
  intros Heq.
  apply (f_equal (fun r : list (option Z) * list (TrainEnergyRegressor.fold_frame (H := exact_numpy)) => TrainEnergyRegressor.label_prediction (H := exact_numpy) <$> r.2)) in Heq.
  vm_compute in Heq. discriminate.
Qed.

(** ** The exact instance at work *)

Section ExactRuns.
#[local] Existing Instance exact_numpy.



Lemma empty_group_both_or_neither (a b : string) :
is_Some ((∅ : gmap string (list (option Z))) !! a)
<-> is_Some ((∅ : gmap string (list (option Z))) !! b).
Proof.
rewrite !lookup_empty. split; intros Hs; exfalso; exact (is_Some_None Hs).
Qed.

Lemma empty_group_needs_no_consent (a : string) (yes confirm : bool) :
is_Some ((∅ : gmap string (list (option Z))) !! a) -> yes || confirm = true.
Proof.
rewrite lookup_empty. intros Hs. exfalso. exact (is_Some_None Hs).
Qed.



Lemma log_target_exponentiates_members_witness :
(ApplyRegression.predict_chunk (H := exact_numpy) log_config two_members
   five_events).1 !! 3%nat
= Some (Some ((2 ^ 2 + 2 ^ 4) / 2)) /\
(ApplyRegression.predict_chunk (H := exact_numpy) log_config two_members
   five_events).2 !! 3%nat
= Some (Some (2 ^ 4 - 2 ^ 2)).
Proof.
apply (log_target_exponentiates_members (H := exact_numpy) log_config
         two_members five_events 3 [Some 2; Some 2]); reflexivity.
Defined.


Lemma overwrite_without_std_is_not_atomic_witness :
let g : gmap string (list (option Z)) :=
  {[ "gamma_energy_prediction" := [Some 7] ]} in
ApplyRegression.main (H := exact_numpy) log_config five_events two_members
  (Some 2%nat) true false g
= (delete "gamma_energy_prediction" g,
   Raise (KeyError "gamma_energy_prediction_std")) /\
delete "gamma_energy_prediction" g <> g.
Proof.
apply (overwrite_without_std_is_not_atomic (H := exact_numpy) log_config
         five_events two_members (Some 2%nat) true false
         {[ "gamma_energy_prediction" := [Some 7] ]} [Some 7]);
  reflexivity.
Defined.

Lemma regression_apply_has_no_source_check_witness :
ApplySeparation.has_source_dependent_columns (String.eqb "theta")
  (ApplyRegression.training_variables log_config) = true /\
exists g',
  ApplyRegression.main (H := exact_numpy) log_config five_events two_members
    (Some 2%nat) true false ∅ = (g', Ok ()) /\
  g' !! ApplyRegression.prediction_name log_config
  = Some (ApplyRegression.row_prediction log_config two_members
            <$> five_events) /\
  g' !! ApplyRegression.std_name log_config
  = Some (ApplyRegression.row_prediction_std log_config two_members
            <$> five_events).
Proof.
split; [reflexivity |].
apply (regression_apply_has_no_source_check (H := exact_numpy)
         (String.eqb "theta") log_config five_events two_members
         (Some 2%nat) true false ∅).
- reflexivity.
- discriminate.
- discriminate.
- apply empty_group_both_or_neither.
- apply empty_group_needs_no_consent.
Defined.

End ExactRuns.

(** ** Runs on concrete inputs *)

Example py_round_ties :
  SplitData.py_round <$> [1 # 2; 3 # 2; 5 # 2; -1 # 2; -3 # 2; 7 # 4]%Q
  = [0; 2; 2; 0; -2; 2].
Proof. reflexivity. Qed.

(** A hundred rows in two halves: fifty rows each, all rows covered. *)
Example split_in_two_halves :
  let out := SplitData.main (fun _ m => seq 0 m) (seq 0 100) "out"
               [1 # 2; 1 # 2]%Q ["train"; "test"] SplitData.Hdf5 in
  SplitData.warned out = [] /\ SplitData.raised out = None /\
  (SplitData.written out).*1 = ["out_train.hdf5"; "out_test.hdf5"] /\
  length <$> (SplitData.written out).*2 = [50; 50]%nat /\
  concat (SplitData.written out).*2 = seq 0 100.
Proof. repeat split; reflexivity. Qed.

(** Nine tenths twice and a tenth: the second part asks for more rows than
    are left. *)
Example split_asks_too_much :
  let out := SplitData.main (fun _ m => seq 0 m) (seq 0 10) "out"
               [9 # 10; 9 # 10; 1 # 10]%Q ["a"; "b"; "c"] SplitData.Csv in
  SplitData.warned out = [SplitData.fractions_warning] /\
  (SplitData.written out).*1 = ["out_a.csv"] /\
  SplitData.raised out = Some (ValueError SplitData.sample_error).
Proof. repeat split; reflexivity. Qed.

(** Five events, one of them with a NaN, under [log_target: true]: four
    numbers and one NaN in each dataset, whatever the chunk size. *)
Example five_events_in_chunks :
  ApplyRegression.main (H := exact_numpy) log_config five_events two_members
    (Some 2%nat) false false ∅
  = ({[ "gamma_energy_prediction" :=
          [Some 5; None; Some 1; Some 10; Some 2];
        "gamma_energy_prediction_std" :=
          [Some 6; None; Some 1; Some 12; Some 0] ]}, Ok ()).
Proof.
  reflexivity.
Qed.

(** The user declines to overwrite: the run is aborted and the file is as
    it was. *)
Example declined_overwrite_aborts :
  let g : gmap string (list (option Z)) :=
    {[ "gamma_energy_prediction" := [Some 7];
       "gamma_energy_prediction_std" := [Some 0] ]} in
  ApplyRegression.main (H := exact_numpy) log_config five_events two_members
    None false false g
  = (g, Raise Abort).
Proof. reflexivity. Qed.

(** * Further properties *)

(** ** The splitter: counts, names and coverage *)

Lemma py_sum_app (l k : list Z) :
  SplitData.py_sum (l ++ k) = SplitData.py_sum l + SplitData.py_sum k.
Proof.
  induction l as [| c l IH]; [reflexivity |].
  rewrite <- app_comm_cons, !py_sum_cons, IH. lia.
Qed.

Lemma py_sum_nonneg (l : list Z) :
  Forall (fun c => 0 <= c) l -> 0 <= SplitData.py_sum l.
Proof. induction 1; [reflexivity | rewrite py_sum_cons; lia]. Qed.

Lemma adjust_last_sum (n_total : nat) (counts : list Z) :
  SplitData.py_sum (SplitData.adjust_last n_total counts)
  = Z.min (SplitData.py_sum counts) (Z.of_nat n_total).
Proof.
  destruct (Z.le_gt_cases (SplitData.py_sum counts) (Z.of_nat n_total))
    as [Hfit | Hover].
  - rewrite adjust_last_fits by exact Hfit. lia.
  - destruct (adjust_last_overflow n_total counts Hover)
      as (init & c & Heq & ->).
    rewrite Heq in Hover |- *.
    rewrite py_sum_app, !py_sum_cons in Hover.
    rewrite py_sum_app, (py_sum_app init [c]), !py_sum_cons.
    change (SplitData.py_sum []) with 0 in Hover |- *. lia.
Qed.

(** X1. After the adjustment the counts sum to the smaller of their sum
    before and the number of rows, so never to more than there are rows;
    the list keeps its length and every count but the last. *)
Theorem adjusted_counts_fit_the_rows (n_total : nat) (fraction : list Q) :
  let counts := SplitData.num_events n_total fraction in
  let adjusted := SplitData.adjust_last n_total counts in
  SplitData.py_sum adjusted
  = Z.min (SplitData.py_sum counts) (Z.of_nat n_total) /\
  SplitData.py_sum adjusted <= Z.of_nat n_total /\
  length adjusted = length fraction /\
  (forall i, (S i < length fraction)%nat -> adjusted !! i = counts !! i).
Proof.
  intros counts adjusted. subst adjusted.
  rewrite adjust_last_sum, adjust_last_length.
  subst counts. rewrite num_events_length.
  split; [reflexivity |]. split; [lia |]. split; [reflexivity |].
  intros i Hi. apply adjust_last_lookup. now rewrite num_events_length.
Qed.




Section SplitMore.
Context {A : Type}.
Implicit Types (data : list A) (parts : list (Z * string)).

Lemma split_parts_names (permutation : nat -> nat -> list nat) ob fmt parts :
  forall draw data files e,
    SplitData.split_parts permutation ob fmt draw data parts = (files, e) ->
    files.*1
    = (fun part_name => ob +:+ "_" +:+ part_name +:+ SplitData.extension fmt)
        <$> take (length files) parts.*2.
Proof.
  induction parts as [| [n nm] parts IH]; intros draw data files e;
    cbn [SplitData.split_parts].
  - intros [= <- <-]. reflexivity.
  - destruct (SplitData.choice permutation draw (length data) n) as [sel | e'].
    + destruct (SplitData.split_parts _ _ _ _ _ parts) as [fs e1] eqn:Hrec.
      intros [= <- <-]. cbn. f_equal. exact (IH _ _ _ _ Hrec).
    + intros [= <- <-]. reflexivity.
Qed.

Lemma split_parts_None_length (permutation : nat -> nat -> list nat)
    ob fmt parts :
  forall draw data files,
    SplitData.split_parts permutation ob fmt draw data parts = (files, None) ->
    length files = length parts.
Proof.
  induction parts as [| [n nm] parts IH]; intros draw data files;
    cbn [SplitData.split_parts].
  - intros [= <-]. reflexivity.
  - destruct (SplitData.choice permutation draw (length data) n) as [sel | e'].
    + destruct (SplitData.split_parts _ _ _ _ _ parts) as [fs e1] eqn:Hrec.
      intros [= <- ->]. cbn. f_equal. exact (IH _ _ _ Hrec).
    + discriminate.
Qed.

(** X3. The files are written in the order of the names, each one as
    [<basename>_<name>] with the extension of the format. *)
Theorem files_are_named_after_the_parts
    (permutation : nat -> nat -> list nat) data ob fraction name fmt :
  let out := SplitData.main permutation data ob fraction name fmt in
  (SplitData.written out).*1
  = (fun part_name => ob +:+ "_" +:+ part_name +:+ SplitData.extension fmt)
      <$> take (length (SplitData.written out)) name.
Proof.
  intros out.
  destruct (decide (length fraction = length name)) as [Hlen | Hlen].
  - destruct (main_unfold permutation data ob fraction name fmt Hlen)
      as (Hrun & Hfst & _).
    fold out in Hrun. apply split_parts_names in Hrun.
    rewrite Hrun, snd_zip; [reflexivity |].
    rewrite adjust_last_length, num_events_length. lia.
  - subst out. unfold SplitData.main.
    apply Nat.eqb_neq in Hlen. rewrite Hlen. reflexivity.
Qed.

(** X6. The run ends in the [AssertionError] exactly when the numbers of
    fractions and of names differ, and then without a warning and without
    a file. *)
Theorem assertion_fails_on_unequal_lengths
    (permutation : nat -> nat -> list nat) data ob fraction name fmt :
  let out := SplitData.main permutation data ob fraction name fmt in
  ((exists msg, SplitData.raised out = Some (AssertionError msg))
   <-> length fraction <> length name) /\
  (length fraction <> length name ->
   SplitData.warned out = [] /\ SplitData.written out = []).
Proof.
  intros out.
  destruct (decide (length fraction = length name)) as [Hlen | Hlen].
  - split; [| tauto]. split; [| tauto]. intros [msg Hmsg].
    destruct (main_unfold permutation data ob fraction name fmt Hlen)
      as (Hrun & _ & _).
    fold out in Hrun. apply split_parts_raised in Hrun as [He | [m He]];
      rewrite He in Hmsg; discriminate.
  - subst out. unfold SplitData.main.
    pose proof Hlen as Hneq. apply Nat.eqb_neq in Hneq. rewrite Hneq. cbn.
    split; [| tauto]. split; [tauto | eauto].
Qed.

Lemma split_parts_same_shape (perm1 perm2 : nat -> nat -> list nat) ob fmt :
  (forall k m, perm1 k m ≡ₚ seq 0 m) -> (forall k m, perm2 k m ≡ₚ seq 0 m) ->
  forall parts draw1 draw2 (data1 data2 : list A),
    length data1 = length data2 ->
    let run1 := SplitData.split_parts perm1 ob fmt draw1 data1 parts in
    let run2 := SplitData.split_parts perm2 ob fmt draw2 data2 parts in
    run1.2 = run2.2 /\ run1.1.*1 = run2.1.*1 /\
    length <$> run1.1.*2 = length <$> run2.1.*2.
Proof.
  intros Hp1 Hp2.
  induction parts as [| [n nm] parts IH]; intros draw1 draw2 data1 data2 Hlen;
    cbn [SplitData.split_parts]; [repeat split |].
  rewrite <- Hlen.
  destruct (SplitData.choice perm1 draw1 (length data1) n) as [sel1 | e1] eqn:H1.
  2:{ apply choice_Raise in H1 as Hr. destruct Hr as [Hbad _].
      unfold SplitData.choice in *.
      destruct (Z.ltb_spec n 0); [injection H1 as <-; repeat split |].
      destruct (Z.ltb_spec (Z.of_nat (length data1)) n);
        [injection H1 as <-; repeat split | lia]. }
  pose proof (choice_Ok perm1 Hp1 _ _ _ _ H1) as (Hn & Hnd1 & Hin1 & Hl1).
  rewrite (choice_feasible perm2 draw2 (length data1) n Hn).
  set (sel2 := take (Z.to_nat n) (perm2 draw2 (length data1))).
  destruct (choice_Ok perm2 Hp2 draw2 (length data1) n sel2)
    as (_ & Hnd2 & Hin2 & Hl2); [apply choice_feasible; exact Hn |].
  set (rest1 := SplitData.remaining (seq 0 (length data1)) sel1).
  set (rest2 := SplitData.remaining (seq 0 (length data1)) sel2).
  assert (Hr1 : forall i, i ∈ rest1 -> (i < length data1)%nat).
  { intros i [_ Hi%elem_of_seq]%list_elem_of_filter. lia. }
  assert (Hr2 : forall i, i ∈ rest2 -> (i < length data2)%nat).
  { intros i [_ Hi%elem_of_seq]%list_elem_of_filter. lia. }
  pose proof (remaining_length (length data1) sel1 Hnd1 Hin1) as Hrl1.
  pose proof (remaining_length (length data1) sel2 Hnd2 Hin2) as Hrl2.
  fold rest1 in Hrl1. fold rest2 in Hrl2.
  specialize (IH (S draw1) (S draw2) (SplitData.iloc data1 rest1)
                (SplitData.iloc data2 rest2)).
  cbn zeta in IH.
  destruct IH as (He & Hnames & Hsizes).
  { rewrite (iloc_length data1 rest1 Hr1), (iloc_length data2 rest2 Hr2). lia. }
  destruct (SplitData.split_parts perm1 _ _ _ _ parts) as [fs1 e1].
  destruct (SplitData.split_parts perm2 _ _ _ _ parts) as [fs2 e2].
  cbn [fst snd] in *. rewrite !fmap_cons. cbn [fst snd].
  rewrite He, Hnames, Hsizes.
  rewrite (iloc_length data1 sel1 Hin1).
  rewrite (iloc_length data2 sel2) by (rewrite <- Hlen; exact Hin2).
  rewrite Hl1, Hl2. repeat split.
Qed.

(** X5. What the random draws decide is which rows go where and nothing
    else: two runs on the same input end the same way and write files of
    the same names and sizes. *)
Theorem draws_decide_only_the_rows
    (perm1 perm2 : nat -> nat -> list nat) data ob fraction name fmt :
  (forall k m, perm1 k m ≡ₚ seq 0 m) -> (forall k m, perm2 k m ≡ₚ seq 0 m) ->
  let out1 := SplitData.main perm1 data ob fraction name fmt in
  let out2 := SplitData.main perm2 data ob fraction name fmt in
  SplitData.warned out1 = SplitData.warned out2 /\
  SplitData.raised out1 = SplitData.raised out2 /\
  (SplitData.written out1).*1 = (SplitData.written out2).*1 /\
  length <$> (SplitData.written out1).*2
  = length <$> (SplitData.written out2).*2.
Proof.
  intros Hp1 Hp2 out1 out2.
  destruct (decide (length fraction = length name)) as [Hlen | Hlen].
  - destruct (main_unfold perm1 data ob fraction name fmt Hlen)
      as (Hrun1 & _ & Hw1).
    destruct (main_unfold perm2 data ob fraction name fmt Hlen)
      as (Hrun2 & _ & Hw2).
    fold out1 in Hrun1, Hw1. fold out2 in Hrun2, Hw2.
    pose proof (split_parts_same_shape perm1 perm2 ob fmt Hp1 Hp2
                  (zip (SplitData.adjust_last (length data)
                          (SplitData.num_events (length data) fraction)) name)
                  0%nat 0%nat data data eq_refl) as Hsame.
    cbn zeta in Hsame. rewrite Hrun1, Hrun2 in Hsame. cbn [fst snd] in Hsame.
    rewrite Hw1, Hw2. tauto.
  - subst out1 out2. unfold SplitData.main.
    apply Nat.eqb_neq in Hlen. rewrite Hlen. repeat split.
Qed.

End SplitMore.

Lemma draws_decide_only_the_rows_witness :
  let fraction := [1 # 2; 1 # 4]%Q in
  let name := ["train"; "test"] in
  let out1 := SplitData.main (fun _ m => seq 0 m) (seq 0 10) "part" fraction
                name SplitData.Csv in
  let out2 := SplitData.main (fun _ m => reverse (seq 0 m)) (seq 0 10) "part"
                fraction name SplitData.Csv in
  SplitData.warned out1 = SplitData.warned out2 /\
  SplitData.raised out1 = SplitData.raised out2 /\
  (SplitData.written out1).*1 = (SplitData.written out2).*1 /\
  length <$> (SplitData.written out1).*2
  = length <$> (SplitData.written out2).*2.
Proof.
  apply (draws_decide_only_the_rows (fun _ m => seq 0 m)
           (fun _ m => reverse (seq 0 m)) (seq 0 10) "part"
           [1 # 2; 1 # 4]%Q ["train"; "test"] SplitData.Csv).
  - intros k m. reflexivity.
  - intros k m. apply reverse_Permutation.
Defined.

Section SplitCoverage.
Context {A : Type} (permutation : nat -> nat -> list nat).
Hypothesis permutation_spec : forall k m, permutation k m ≡ₚ seq 0 m.
Implicit Types (data : list A) (parts : list (Z * string)).

Lemma split_parts_concat ob fmt parts : forall draw data files e,
  NoDup data ->
  SplitData.split_parts permutation ob fmt draw data parts = (files, e) ->
  NoDup (concat files.*2) /\
  (forall x, x ∈ concat files.*2 -> x ∈ data) /\
  (e = None ->
   Z.of_nat (length (concat files.*2)) = SplitData.py_sum parts.*1).
Proof.
  induction parts as [| [n nm] parts IH]; intros draw data files e Hd;
    cbn [SplitData.split_parts].
  { intros [= <- <-]. cbn. split; [constructor |].
    split; [intros x Hx; inversion Hx | reflexivity]. }
  destruct (SplitData.choice permutation draw (length data) n)
    as [sel | e'] eqn:Hc.
  2:{ intros [= <- <-]. cbn. split; [constructor |].
      split; [intros x Hx; inversion Hx | discriminate]. }
  apply (choice_Ok permutation permutation_spec) in Hc
    as (Hn & Hsel & Hin & Hlen).
  set (rest := SplitData.remaining (seq 0 (length data)) sel).
  destruct (SplitData.split_parts _ _ _ _ _ parts) as [fs e1] eqn:Hrec.
  intros [= <- <-].
  assert (Hrest : NoDup rest) by apply NoDup_filter, NoDup_seq.
  destruct (IH _ _ _ _ (iloc_NoDup data rest Hd Hrest) Hrec)
    as (Hnd & Hsub & Hsum).
  rewrite !fmap_cons. cbn [snd concat].
  split; [| split].
  - apply NoDup_app. split; [apply iloc_NoDup; assumption |].
    split; [| exact Hnd].
    intros x Hx1 Hx2%Hsub.
    eapply (iloc_disjoint data sel rest x Hd); eauto.
    intros i Hi [Hni _]%list_elem_of_filter. tauto.
  - intros x [Hx | Hx]%elem_of_app; [now apply (iloc_subseteq data sel) |].
    apply (iloc_subseteq data rest), Hsub, Hx.
  - intros ->. rewrite length_app, (iloc_length data sel Hin), Hlen.
    cbn [fst]. rewrite py_sum_cons, <- (Hsum eq_refl). lia.
Qed.

Lemma split_parts_sizes ob fmt parts : forall draw data files e,
  SplitData.split_parts permutation ob fmt draw data parts = (files, e) ->
  forall i p, files.*2 !! i = Some p ->
    parts.*1 !! i = Some (Z.of_nat (length p)).
Proof.
  induction parts as [| [n nm] parts IH]; intros draw data files e;
    cbn [SplitData.split_parts].
  { intros [= <- <-] i p Hp. destruct i; discriminate. }
  destruct (SplitData.choice permutation draw (length data) n)
    as [sel | e'] eqn:Hc.
  2:{ intros [= <- <-] i p Hp. destruct i; discriminate. }
  apply (choice_Ok permutation permutation_spec) in Hc
    as (Hn & Hsel & Hin & Hlen).
  destruct (SplitData.split_parts _ _ _ _ _ parts) as [fs e1] eqn:Hrec.
  intros [= <- <-] [| i] p; rewrite !fmap_cons; cbn [fst snd].
  - intros [= <-]. rewrite (iloc_length data sel Hin), Hlen. cbn.
    f_equal. lia.
  - apply (IH _ _ _ _ Hrec).
Qed.

(** X4. When the run completes and the rounded counts reach the number
    of rows, the parts together hold every row of the input exactly
    once. *)
Theorem complete_split_covers_every_row data ob fraction name fmt :
  NoDup data ->
  length fraction = length name ->
  let out := SplitData.main permutation data ob fraction name fmt in
  Z.of_nat (length data)
  <= SplitData.py_sum (SplitData.num_events (length data) fraction) ->
  SplitData.raised out = None ->
  concat (SplitData.written out).*2 ≡ₚ data.
Proof.
  intros Hd Hlen out Hreach Hdone.
  destruct (main_unfold permutation data ob fraction name fmt Hlen)
    as (Hrun & Hfst & _).
  fold out in Hrun. rewrite Hdone in Hrun.
  destruct (split_parts_concat _ _ _ _ _ _ _ Hd Hrun) as (Hnd & Hsub & Hsum).
  specialize (Hsum eq_refl). rewrite Hfst, adjust_last_sum in Hsum.
  apply submseteq_length_Permutation; [apply NoDup_submseteq; assumption |].
  lia.
Qed.

(** X7. With as many names as fractions the run writes every part and
    ends normally exactly when no count is negative after the
    adjustment; otherwise it ends in the [ValueError] of a sampling. *)
Theorem split_completes_iff_no_count_is_negative data ob fraction name fmt :
  length fraction = length name ->
  let out := SplitData.main permutation data ob fraction name fmt in
  let counts :=
    SplitData.adjust_last (length data)
      (SplitData.num_events (length data) fraction) in
  (SplitData.raised out = None <-> Forall (fun n => 0 <= n) counts) /\
  (SplitData.raised out = None ->
   length (SplitData.written out) = length name) /\
  (SplitData.raised out <> None ->
   exists msg, SplitData.raised out = Some (ValueError msg)).
Proof.
  intros Hlen out counts.
  destruct (main_unfold permutation data ob fraction name fmt Hlen)
    as (Hrun & Hfst & _).
  fold out counts in Hrun, Hfst.
  assert (Hcl : length counts = length name).
  { subst counts. rewrite adjust_last_length, num_events_length. exact Hlen. }
  assert (Hdone : SplitData.raised out = None ->
                  length (SplitData.written out) = length name).
  { intros He. rewrite He in Hrun. apply split_parts_None_length in Hrun.
    rewrite Hrun, length_zip. lia. }
  split; [split |]; [| | split; [exact Hdone |]].
  - intros He. specialize (Hdone He).
    apply Forall_lookup. intros i c Hc.
    assert (Hi : (i < length (SplitData.written out))%nat).
    { rewrite Hdone, <- Hcl. eapply lookup_lt_Some; eauto. }
    destruct (lookup_lt_is_Some_2 (SplitData.written out).*2 i) as [p Hp];
      [now rewrite length_fmap |].
    pose proof (split_parts_sizes _ _ _ _ _ _ _ Hrun i p Hp) as Hrun'.
    rewrite Hfst, Hc in Hrun'.
    injection Hrun' as ->. lia.
  - intros Hpos.
    apply (split_parts_complete permutation permutation_spec) in Hrun
      as [He _]; [exact He | now rewrite Hfst |].
    rewrite Hfst. subst counts. rewrite adjust_last_sum. lia.
  - intros Hne. apply split_parts_raised in Hrun as [He | He]; [tauto | exact He].
Qed.

End SplitCoverage.

Lemma complete_split_covers_every_row_witness :
  let out := SplitData.main (fun _ m => reverse (seq 0 m)) (seq 0 100) "part"
               [1 # 2; 1 # 2]%Q ["train"; "test"] SplitData.Hdf5 in
  SplitData.raised out = None /\
  concat (SplitData.written out).*2 ≡ₚ seq 0 100.
Proof.
  split; [reflexivity |].
  apply (complete_split_covers_every_row (fun _ m => reverse (seq 0 m))
           (fun k m => reverse_Permutation (seq 0 m))
           (seq 0 100) "part" [1 # 2; 1 # 2]%Q ["train"; "test"]
           SplitData.Hdf5).
  - apply NoDup_seq.
  - reflexivity.
  - vm_compute. discriminate.
  - reflexivity.
Defined.

Lemma split_completes_iff_no_count_is_negative_witness :
  let fraction := [1 # 6; 1 # 6; 1 # 6; 1 # 6; 1 # 6; 1 # 6]%Q in
  let name := ["a"; "b"; "c"; "d"; "e"; "f"] in
  let out := SplitData.main (fun _ m => seq 0 m) (seq 0 9) "part" fraction
               name SplitData.Csv in
  let counts := SplitData.adjust_last 9 (SplitData.num_events 9 fraction) in
  counts = [2; 2; 2; 2; 2; -1] /\
  (SplitData.raised out = None <-> Forall (fun n => 0 <= n) counts) /\
  (SplitData.raised out = None ->
   length (SplitData.written out) = length name) /\
  (SplitData.raised out <> None ->
   exists msg, SplitData.raised out = Some (ValueError msg)).
Proof.
  split; [reflexivity |].
  apply (split_completes_iff_no_count_is_negative (fun _ m => seq 0 m)
           (fun k m => reflexivity (seq 0 m)) (seq 0 9) "part"
           [1 # 6; 1 # 6; 1 # 6; 1 # 6; 1 # 6; 1 # 6]%Q
           ["a"; "b"; "c"; "d"; "e"; "f"] SplitData.Csv).
  reflexivity.
Defined.

(** ** The regression apply script: what a run touches and leaves *)

Section ApplyRegressionMore.
Context `{NumPy}.
Import ApplyRegression.

Implicit Types (cfg : config) (g : gmap string (list float)).

Lemma bind_keeps {A B} (m : h5 A) (f : A -> h5 B) (k : string) :
  (forall g, (m g).1 !! k = g !! k) ->
  (forall a g, (f a g).1 !! k = g !! k) ->
  forall g, ((m ≫= f) g).1 !! k = g !! k.
Proof.
  intros Hm Hf g. unfold mbind, h5_bind. specialize (Hm g).
  destruct (m g) as [g1 [a | e]]; cbn [fst] in *; [| exact Hm].
  rewrite Hf. exact Hm.
Qed.

Lemma del_keeps (name k : string) g :
  k <> name -> (del name g).1 !! k = g !! k.
Proof.
  intros Hk. unfold del. destruct (g !! name); [| reflexivity].
  cbn. now rewrite lookup_delete_ne.
Qed.

Lemma resize_keeps (name k : string) (n : nat) g :
  k <> name -> (resize name n g).1 !! k = g !! k.
Proof.
  intros Hk. unfold resize. destruct (g !! name); [| reflexivity].
  cbn. now rewrite lookup_insert_ne.
Qed.

Lemma write_slice_keeps (name k : string) (a b : nat) (data : list float) g :
  k <> name -> (write_slice name a b data g).1 !! k = g !! k.
Proof.
  intros Hk. unfold write_slice. destruct (g !! name); [| reflexivity].
  cbn. destruct (decide _); [| reflexivity]. cbn. now rewrite lookup_insert_ne.
Qed.

Lemma create_dataset_keeps (name k : string) (data : list float) g :
  k <> name -> (create_dataset name data g).1 !! k = g !! k.
Proof.
  intros Hk. unfold create_dataset. destruct (g !! name); [reflexivity |].
  cbn. now rewrite lookup_insert_ne.
Qed.

Lemma write_chunk_keeps cfg (pred std : list float) (a b : nat) (k : string) g :
  k <> prediction_name cfg -> k <> std_name cfg ->
  (write_chunk cfg pred std a b g).1 !! k = g !! k.
Proof.
  intros Hp Hs. unfold write_chunk. revert g.
  apply bind_keeps; [reflexivity |]. intros [|].
  - apply bind_keeps; [intros g; unfold shape0; now destruct (g !! _) |].
    intros n.
    apply bind_keeps; [intros g; now apply resize_keeps |]. intros _.
    apply bind_keeps; [intros g; now apply write_slice_keeps |]. intros _.
    apply bind_keeps; [intros g; now apply resize_keeps |]. intros _ g.
    now apply write_slice_keeps.
  - apply bind_keeps; [intros g; now apply create_dataset_keeps |]. intros _ g.
    now apply create_dataset_keeps.
Qed.

Lemma predict_loop_keeps cfg (estimators_ : list estimator) chunks (k : string) :
  k <> prediction_name cfg -> k <> std_name cfg ->
  forall g, (predict_loop cfg estimators_ chunks g).1 !! k = g !! k.
Proof.
  intros Hp Hs. induction chunks as [| [[df a] b] chunks IH];
    [reflexivity |].
  cbn [predict_loop]. destruct (predict_chunk cfg estimators_ df) as [p s].
  apply bind_keeps; [intros g; now apply write_chunk_keeps |].
  intros _. exact IH.
Qed.

Lemma delete_existing_keeps cfg (yes confirm : bool) (k : string) :
  k <> prediction_name cfg -> k <> std_name cfg ->
  forall g, (delete_existing cfg yes confirm g).1 !! k = g !! k.
Proof.
  intros Hp Hs. unfold delete_existing.
  apply bind_keeps; [reflexivity |]. intros [|]; [| reflexivity].
  apply bind_keeps; [intros g; now destruct (negb yes && negb confirm) |].
  intros _.
  apply bind_keeps; [intros g; now apply del_keeps |]. intros _ g.
  now apply del_keeps.
Qed.

(** X8. However a run ends, every dataset of the group other than the
    two prediction datasets is as it was. *)
Theorem other_datasets_are_untouched cfg (table : list row)
    (estimators_ : list estimator) (chunksize : option nat)
    (yes confirm : bool) g (k : string) :
  k <> prediction_name cfg -> k <> std_name cfg ->
  (main cfg table estimators_ chunksize yes confirm g).1 !! k = g !! k.
Proof.
  intros Hp Hs. unfold main. revert g.
  apply bind_keeps; [now apply delete_existing_keeps |].
  intros _. now apply predict_loop_keeps.
Qed.


End ApplyRegressionMore.

Section ApplyRegressionErrors.
Context `{NumPy}.
Import ApplyRegression.

Implicit Types (cfg : config) (g : gmap string (list float)).

Lemma bind_not_Abort {A B} (m : h5 A) (f : A -> h5 B) :
  (forall g, (m g).2 <> Raise Abort) ->
  (forall a g, (f a g).2 <> Raise Abort) ->
  forall g, ((m ≫= f) g).2 <> Raise Abort.
Proof.
  intros Hm Hf g. unfold mbind, h5_bind. specialize (Hm g).
  destruct (m g) as [g1 [a | e]]; cbn [snd] in *; [apply Hf |].
  intros [= ->]. now apply Hm.
Qed.

Lemma write_chunk_not_Abort cfg (pred std : list float) (a b : nat) g :
  (write_chunk cfg pred std a b g).2 <> Raise Abort.
Proof.
  unfold write_chunk. revert g.
  apply bind_not_Abort; [discriminate |]. intros [|].
  - apply bind_not_Abort;
      [intros g; unfold shape0; destruct (g !! _); discriminate |].
    intros n.
    apply bind_not_Abort;
      [intros g; unfold resize; destruct (g !! _); discriminate |].
    intros _.
    apply bind_not_Abort;
      [intros g; unfold write_slice; destruct (g !! _);
       [destruct (decide _) |]; discriminate |].
    intros _.
    apply bind_not_Abort;
      [intros g; unfold resize; destruct (g !! _); discriminate |].
    intros _ g. unfold write_slice. destruct (g !! _);
      [destruct (decide _) |]; discriminate.
  - apply bind_not_Abort;
      [intros g; unfold create_dataset; destruct (g !! _); discriminate |].
    intros _ g. unfold create_dataset. destruct (g !! _); discriminate.
Qed.

Lemma predict_loop_not_Abort cfg (estimators_ : list estimator) chunks :
  forall g, (predict_loop cfg estimators_ chunks g).2 <> Raise Abort.
Proof.
  induction chunks as [| [[df a] b] chunks IH]; [discriminate |].
  cbn [predict_loop]. destruct (predict_chunk cfg estimators_ df) as [p s].
  apply bind_not_Abort; [intros g; apply write_chunk_not_Abort |].
  intros _. exact IH.
Qed.

Lemma delete_existing_abort cfg (yes confirm : bool) g :
  (is_Some (g !! prediction_name cfg) /\ yes = false /\ confirm = false /\
   delete_existing cfg yes confirm g = (g, Raise Abort)) \/
  (~ (is_Some (g !! prediction_name cfg) /\ yes = false /\ confirm = false) /\
   (delete_existing cfg yes confirm g).2 <> Raise Abort).
Proof.
  unfold delete_existing, contains, h5_raise, del, mbind, h5_bind, mret, h5_ret.
  destruct (g !! prediction_name cfg) as [P |] eqn:Hp.
  - rewrite bool_decide_eq_true_2 by eauto.
    destruct yes, confirm; cbn [negb andb];
      [right | right | right | left; repeat split; eauto];
      (split; [intros (_ & ? & ?); discriminate |]);
      rewrite Hp; destruct (delete _ g !! std_name cfg); discriminate.
  - rewrite bool_decide_eq_false_2 by (intros [? ?]; discriminate).
    right. split; [intros ([? ?] & _) |]; discriminate.
Qed.

Lemma main_steps cfg (table : list row) (estimators_ : list estimator)
    (chunksize : option nat) (yes confirm : bool) g :
  main cfg table estimators_ chunksize yes confirm g
  = match delete_existing cfg yes confirm g with
    | (g', Ok _) =>
        predict_loop cfg estimators_ (read_chunked table chunksize) g'
    | (g', Raise e) => (g', Raise e)
    end.
Proof. reflexivity. Qed.

(** X10. A run is aborted exactly when the prediction dataset exists,
    [--yes] was not given and the user declines; the file is then as it
    was. *)
Theorem abort_only_on_declined_overwrite cfg (table : list row)
    (estimators_ : list estimator) (chunksize : option nat)
    (yes confirm : bool) g :
  let run := main cfg table estimators_ chunksize yes confirm g in
  (run.2 = Raise Abort
   <-> is_Some (g !! prediction_name cfg) /\ yes = false /\ confirm = false) /\
  (run.2 = Raise Abort -> run.1 = g).
Proof.
  intros run. subst run. rewrite main_steps.
  destruct (delete_existing_abort cfg yes confirm g)
    as [(Hp & Hy & Hc & ->) | [Hno Hdel]].
  - cbn. tauto.
  - assert (Hrun : (match delete_existing cfg yes confirm g with
                    | (g', Ok _) =>
                        predict_loop cfg estimators_
                          (read_chunked table chunksize) g'
                    | (g', Raise e) => (g', Raise e)
                    end).2 <> Raise Abort).
    { destruct (delete_existing cfg yes confirm g) as [g' [[] | e]];
        [apply predict_loop_not_Abort |].
      cbn [snd] in *. intros [= ->]. now apply Hdel. }
    tauto.
Qed.


Lemma log_target_is_not_True cfg :
  log_target cfg <> Some (YBool true) -> log_target_is_True cfg = false.
Proof.
  unfold log_target_is_True. destruct (log_target cfg) as [[[|] | | |] |];
    try reflexivity. congruence.
Qed.

(** X12. Any value of [log_target] other than the boolean true, also a
    missing one, the number 1 or a string, leaves the members'
    predictions as they are: a valid row gets their mean and their
    standard deviation. *)
Theorem other_log_target_values_do_not_exponentiate cfg
    (estimators_ : list estimator) (df_data : list row) (i : nat) (r : row) :
  log_target cfg <> Some (YBool true) ->
  df_data !! i = Some r ->
  valid_row (astype_float32 <$> r) = true ->
  let raw :=
    (fun t : estimator => t (astype_float32 <$> r)) <$> estimators_ in
  (predict_chunk cfg estimators_ df_data).1 !! i = Some (np_mean raw) /\
  (predict_chunk cfg estimators_ df_data).2 !! i = Some (np_std raw).
Proof.
  intros Hlog Hr Hv raw. rewrite predict_chunk_rows. cbn [fst snd].
  rewrite !list_lookup_fmap, Hr. cbn [fmap option_fmap option_map].
  unfold row_prediction, row_prediction_std, member_predictions.
  cbn zeta. rewrite Hv, (log_target_is_not_True cfg Hlog). split; reflexivity.
Qed.


End ApplyRegressionErrors.

Section ExactRunsMore.
#[local] Existing Instance exact_numpy.

Lemma other_datasets_are_untouched_witness :
  let g : gmap string (list (option Z)) :=
    {[ "size" := [Some 1; Some 3; Some 0; Some 2; Some 1];
       "gamma_energy_prediction" := [Some 7] ]} in
  (ApplyRegression.main (H := exact_numpy) log_config five_events two_members
     (Some 2%nat) true false g).1 !! "size"
  = g !! "size".
Proof.
  apply (other_datasets_are_untouched (H := exact_numpy) log_config
           five_events two_members (Some 2%nat) true false
           {[ "size" := [Some 1; Some 3; Some 0; Some 2; Some 1];
              "gamma_energy_prediction" := [Some 7] ]} "size");
    discriminate.
Defined.



Lemma other_log_target_values_do_not_exponentiate_witness :
  let cfg := {| ApplyRegression.training_variables := ["size"; "width"];
                ApplyRegression.log_target := Some (YInt 1);
                ApplyRegression.class_name := None |} in
  (ApplyRegression.predict_chunk (H := exact_numpy) cfg two_members
     five_events).1 !! 3%nat = Some (Some ((2 + 4) / 2)) /\
  (ApplyRegression.predict_chunk (H := exact_numpy) cfg two_members
     five_events).2 !! 3%nat = Some (Some (4 - 2)).
Proof.
  apply (other_log_target_values_do_not_exponentiate (H := exact_numpy)
           {| ApplyRegression.training_variables := ["size"; "width"];
              ApplyRegression.log_target := Some (YInt 1);
              ApplyRegression.class_name := None |}
           two_members five_events 3 [Some 2; Some 2]).
  - discriminate.
  - reflexivity.
  - reflexivity.
Defined.

End ExactRunsMore.

(** ** The trainer: the persisted model and the training table *)

Section TrainMore.
Context `{NumPy} {regressor : Type}.
Variable fit : regressor -> list row -> list float -> regressor.
Variable predict : regressor -> list row -> list float.
Variable r2_score : list float -> list float -> float.
Import TrainEnergyRegressor.

(** X14. With a regressor whose [fit] discards what was fitted before,
    the cross-validation leaves no trace in the model that is persisted:
    it is the configured regressor fitted once on the whole table, on
    the logarithm of the target under [log_target: true]. *)
Theorem persisted_model_is_one_fit_of_the_whole_table
    (log_target : option yaml) (reg : regressor) (df_train : list row)
    (target : list float) (splits : list (list nat * list nat)) :
  (forall e e' X y, fit e X y = fit e' X y) ->
  (main fit predict r2_score log_target reg df_train target splits).2
  = fit reg df_train
      (if is_True (default (YBool false) log_target)
       then np_log <$> target else target).
Proof.
  intros Hforget. unfold main.
  set (y := if is_True (default (YBool false) log_target)
            then np_log <$> target else target).
  destruct (cross_validation fit predict r2_score _ reg df_train y 0 splits)
    as [[reg' scores] frames].
  cbn [snd]. apply Hforget.
Qed.

End TrainMore.

Lemma persisted_model_is_one_fit_of_the_whole_table_witness :
  (forall (e e' : option (option Z)) (X : list (list (option Z)))
          (y : list (option Z)),
     mean_fit (H := exact_numpy) e X y = mean_fit (H := exact_numpy) e' X y) /\
  (TrainEnergyRegressor.main (H := exact_numpy) mean_fit warm_start_predict
     squared_residuals (Some (YBool true)) None [[Some 0]; [Some 1]]
     [Some 8; Some 32] [([1], [0]); ([0], [1])]%nat).2
  = Some (Some 4).
Proof.
  split; [reflexivity |].
  apply (persisted_model_is_one_fit_of_the_whole_table (H := exact_numpy)
           mean_fit warm_start_predict squared_residuals (Some (YBool true))
           None [[Some 0]; [Some 1]] [Some 8; Some 32]
           [([1], [0]); ([0], [1])]%nat).
  reflexivity.
Defined.

Section TrainingTableProperties.
Context `{NumPy}.
Import TrainingTable.

Lemma with_index_labels (X : list row) :
  (with_index X).*1 = seq 0 (length X).
Proof.
  unfold with_index. apply list_eq. intros i.
  rewrite list_lookup_fmap, list_lookup_imap.
  destruct (X !! i) as [r |] eqn:Hr; cbn.
  - symmetry. apply lookup_seq_lt. eapply lookup_lt_Some; eauto.
  - symmetry. apply lookup_seq_ge. now apply lookup_ge_None.
Qed.

Lemma dropna_labels_NoDup (X : list row) :
  NoDup (dropna (with_index X)).*1.
Proof.
  apply (sublist_NoDup _ (with_index X).*1).
  - rewrite with_index_labels. apply NoDup_seq.
  - apply fmap_sublist, sublist_filter.
Qed.

Lemma dropna_elem (X : list row) (i : nat) (r : row) :
  (i, r) ∈ dropna (with_index X) <-> X !! i = Some r /\ notnull r = true.
Proof.
  unfold dropna, with_index. rewrite list_elem_of_filter. cbn.
  rewrite Is_true_true. split.
  - intros [Hn [k Hk]%list_elem_of_lookup]. split; [| exact Hn].
    rewrite list_lookup_imap in Hk.
    destruct (X !! k) as [r' |] eqn:Hr; [| discriminate].
    injection Hk as -> ->. exact Hr.
  - intros [Hr Hn]. split; [exact Hn |]. apply list_elem_of_lookup.
    exists i. now rewrite list_lookup_imap, Hr.
Qed.

Lemma loc_labels_Ok (column : list float) (index : list nat) :
  (forall i, i ∈ index -> (i < length column)%nat) ->
  exists vs, loc_labels column index = Ok vs.
Proof.
  induction index as [| i index IH]; intros Hin; [now exists [] |].
  destruct (lookup_lt_is_Some_2 column i) as [v Hv]; [apply Hin; left |].
  destruct IH as [vs Hvs]; [intros j Hj; apply Hin; now right |].
  exists (v :: vs). cbn. now rewrite Hv, Hvs.
Qed.

Lemma loc_labels_spec (column : list float) (index : list nat) :
  forall vs, loc_labels column index = Ok vs ->
    length vs = length index /\
    forall k i, index !! k = Some i -> vs !! k = column !! i.
Proof.
  induction index as [| i index IH]; intros vs; cbn.
  - intros [= <-]. split; [reflexivity |]. intros k j Hk. destruct k; discriminate.
  - destruct (column !! i) as [v |] eqn:Hv; [| discriminate].
    destruct (loc_labels column index) as [vs' | e]; [| discriminate].
    intros [= <-]. destruct (IH vs' eq_refl) as [Hl Hk].
    split; [cbn; now rewrite Hl |].
    intros [| k] j; cbn; [intros [= <-]; now rewrite Hv | apply Hk].
Qed.

Variable permutation : nat -> list nat.
Hypothesis permutation_spec : forall m, permutation m ≡ₚ seq 0 m.

Lemma sample_Ok (df df' : list (nat * row)) (n : Z) :
  NoDup df.*1 ->
  sample permutation df n = Ok df' ->
  0 <= n <= Z.of_nat (length df) /\ length df' = Z.to_nat n /\
  NoDup df'.*1 /\ (forall x, x ∈ df' -> x ∈ df).
Proof.
  intros Hnd. unfold sample.
  destruct (Z.ltb_spec n 0); [discriminate |].
  destruct (Z.ltb_spec (Z.of_nat (length df)) n); [discriminate |].
  intros [= <-]. pose proof (permutation_spec (length df)) as Hp.
  set (pos := take (Z.to_nat n) (permutation (length df))).
  assert (Hpos : NoDup pos).
  { apply (sublist_NoDup _ (permutation (length df))); [| apply sublist_take].
    rewrite Hp. apply NoDup_seq. }
  assert (Hin : forall i, i ∈ pos -> (i < length df)%nat).
  { intros i Hi. apply (subseteq_take (Z.to_nat n)) in Hi.
    rewrite Hp in Hi. apply elem_of_seq in Hi. lia. }
  split; [lia |]. split; [| split].
  - change (omap (fun i => df !! i) pos) with (SplitData.iloc df pos).
    rewrite (iloc_length df pos Hin). subst pos.
    rewrite length_take, Hp, length_seq. lia.
  - rewrite list_fmap_omap.
    assert (Heq : omap (fun i => fst <$> df !! i) pos
                  = SplitData.iloc df.*1 pos).
    { unfold SplitData.iloc. apply list_omap_ext.
      clear. induction pos; constructor; [now rewrite list_lookup_fmap | assumption]. }
    rewrite Heq. now apply iloc_NoDup.
  - intros x Hx. now apply (iloc_subseteq df pos).
Qed.

(** X15. In the training table no row has a NaN, no event is there
    twice, every row is the float32 image of the event its label names,
    and the target at the same place is the target of that event; a
    sample has exactly the number of rows asked for. *)
Theorem training_rows_are_clean_and_aligned (X : list row)
    (target_column : list float) (n_signal : option Z)
    (df_train : list (nat * row)) (target : list float) :
  training_rows permutation X target_column n_signal
  = Ok (df_train, target) ->
  NoDup df_train.*1 /\
  length target = length df_train /\
  (forall k i r, df_train !! k = Some (i, r) ->
     exists r0, X !! i = Some r0 /\ r = astype_float32 <$> r0 /\
       notnull r = true /\
       target !! k = target_column !! i /\ is_Some (target !! k)) /\
  (forall n, n_signal = Some n -> n <> 0 ->
     Z.of_nat (length df_train) = n).
Proof.
  unfold training_rows.
  set (clean := dropna (with_index (ApplyRegression.convert_to_float32 X))).
  intros Hrun.
  assert (Hsampled : NoDup df_train.*1 /\ (forall x, x ∈ df_train -> x ∈ clean) /\
            (forall n, n_signal = Some n -> n <> 0 ->
               Z.of_nat (length df_train) = n) /\
            loc_labels target_column df_train.*1 = Ok target).
  { destruct n_signal as [n |].
    - destruct (Z.eqb_spec n 0) as [-> | Hn0].
      + destruct (loc_labels target_column clean.*1) eqn:Hloc; [| discriminate].
        injection Hrun as <- <-.
        split; [apply dropna_labels_NoDup |]. split; [auto |].
        split; [intros n [= <-]; congruence | exact Hloc].
      + destruct (sample permutation clean n) as [df' | e] eqn:Hs;
          [| discriminate].
        destruct (loc_labels target_column df'.*1) eqn:Hloc; [| discriminate].
        injection Hrun as <- <-.
        apply sample_Ok in Hs as (Hn & Hl & Hnd & Hsub);
          [| apply dropna_labels_NoDup].
        split; [exact Hnd |]. split; [exact Hsub |].
        split; [intros m [= <-] _; lia | exact Hloc].
    - destruct (loc_labels target_column clean.*1) eqn:Hloc; [| discriminate].
      injection Hrun as <- <-.
      split; [apply dropna_labels_NoDup |]. split; [auto |].
      split; [discriminate | exact Hloc]. }
  destruct Hsampled as (Hnd & Hsub & Hn & Hloc).
  destruct (loc_labels_spec _ _ _ Hloc) as [Hlen Hk].
  rewrite length_fmap in Hlen.
  split; [exact Hnd |]. split; [exact Hlen |]. split; [| exact Hn].
  intros k i r Hkr.
  assert (Hin : (i, r) ∈ clean).
  { apply Hsub, list_elem_of_lookup. eauto. }
  apply dropna_elem in Hin as [Hx Hnn].
  unfold ApplyRegression.convert_to_float32 in Hx.
  rewrite list_lookup_fmap in Hx.
  destruct (X !! i) as [r0 |] eqn:Hr0; [| discriminate].
  injection Hx as <-. exists r0.
  split; [reflexivity |]. split; [reflexivity |]. split; [exact Hnn |].
  assert (Hti : target !! k = target_column !! i).
  { apply Hk. now rewrite list_lookup_fmap, Hkr. }
  split; [exact Hti |].
  apply lookup_lt_is_Some_2. rewrite Hlen. eapply lookup_lt_Some; eauto.
Qed.

(** X16. The lines end in an exception only through the sample: without
    [n_signal], or with 0, every row without a NaN is kept, in the order
    of the table; a sample of more rows than are left without a NaN is a
    [ValueError], every smaller one is drawn. *)
Theorem training_rows_fail_only_in_the_sample (X : list row)
    (target_column : list float) (n_signal : option Z) :
  length target_column = length X ->
  let clean := dropna (with_index (ApplyRegression.convert_to_float32 X)) in
  let run := training_rows permutation X target_column n_signal in
  match n_signal with
  | Some n =>
      if n =? 0 then exists target, run = Ok (clean, target)
      else if n <? 0 then run = Raise (ValueError negative_error)
      else if Z.of_nat (length clean) <? n
      then run = Raise (ValueError sample_error)
      else exists df_train target, run = Ok (df_train, target)
  | None => exists target, run = Ok (clean, target)
  end.
Proof.
  intros Hlen clean run. subst run. unfold training_rows. fold clean.
  assert (Hclean : forall i, i ∈ clean.*1 -> (i < length target_column)%nat).
  { intros i [[j r] [-> Hir]]%list_elem_of_fmap. cbn.
    apply dropna_elem in Hir as [Hx _]. apply lookup_lt_Some in Hx.
    unfold ApplyRegression.convert_to_float32 in Hx.
    rewrite length_fmap in Hx. lia. }
  assert (Hall : exists target,
            match loc_labels target_column clean.*1 with
            | Ok target => Ok (clean, target)
            | Raise e => Raise e
            end = Ok (clean, target)).
  { destruct (loc_labels_Ok target_column clean.*1 Hclean) as [vs ->]. eauto. }
  destruct n_signal as [n |]; [| exact Hall].
  destruct (Z.eqb_spec n 0) as [-> | Hn0]; [exact Hall |].
  unfold sample.
  destruct (Z.ltb_spec n 0); [reflexivity |].
  destruct (Z.ltb_spec (Z.of_nat (length clean)) n); [reflexivity |].
  set (df' := omap _ _).
  destruct (loc_labels_Ok target_column df'.*1) as [vs ->]; [| eauto].
  intros i [[j r] [-> Hir]]%list_elem_of_fmap. apply Hclean.
  apply list_elem_of_fmap. exists (j, r). split; [reflexivity |].
  subst df'. apply list_elem_of_omap in Hir as (p & _ & Hp).
  apply list_elem_of_lookup. eauto.
Qed.

End TrainingTableProperties.

Section ExactTrainingTable.
#[local] Existing Instance exact_numpy.

Lemma training_rows_are_clean_and_aligned_witness :
  let target_column := [Some 10; Some 20; Some 30; Some 40; Some 50] in
  let df_train : list (nat * list (option Z)) :=
    [(4%nat, [Some 1; Some 0]); (3%nat, [Some 2; Some 2])] in
  let target := [Some 50; Some 40] in
  TrainingTable.training_rows (H := exact_numpy)
    (fun m => reverse (seq 0 m)) five_events target_column (Some 2)
  = Ok (df_train, target) /\
  NoDup df_train.*1 /\
  length target = length df_train /\
  (forall k i r, df_train !! k = Some (i, r) ->
     exists r0, five_events !! i = Some r0 /\ r = astype_float32 <$> r0 /\
       TrainingTable.notnull r = true /\
       target !! k = target_column !! i /\ is_Some (target !! k)) /\
  (forall n, Some 2 = Some n -> n <> 0 -> Z.of_nat (length df_train) = n).
Proof.
  split; [reflexivity |].
  apply (training_rows_are_clean_and_aligned (H := exact_numpy)
           (fun m => reverse (seq 0 m))
           (fun m => reverse_Permutation (seq 0 m))
           five_events [Some 10; Some 20; Some 30; Some 40; Some 50] (Some 2)
           [(4%nat, [Some 1; Some 0]); (3%nat, [Some 2; Some 2])]
           [Some 50; Some 40]).
  reflexivity.
Defined.

Lemma training_rows_fail_only_in_the_sample_witness :
  TrainingTable.training_rows (H := exact_numpy)
    (fun m => reverse (seq 0 m)) five_events
    [Some 10; Some 20; Some 30; Some 40; Some 50] (Some 5)
  = Raise (ValueError TrainingTable.sample_error).
Proof.
  apply (training_rows_fail_only_in_the_sample (H := exact_numpy)
           (fun m => reverse (seq 0 m)) five_events
           [Some 10; Some 20; Some 30; Some 40; Some 50] (Some 5)).
  reflexivity.
Defined.

End ExactTrainingTable.
